(** * Tenant isolation over shared object storage

    A shallow embedding of the storage-key guard ([utils/s3-guard.js]),
    the upload, download, ingestion and tenant-deletion services, and the
    properties of the specification that concern them. *)

From Stdlib Require Import Ascii String DecimalString DecimalZ.
From Stdlib Require Import List NArith ZArith Bool Lia.
From Equations Require Import Equations.
Import ListNotations.

(** ** JavaScript strings and values *)

(** A JavaScript string is a sequence of UTF-16 code units; the regular
    expressions of the sources carry no [u] flag and so work on code
    units.  A code unit is modelled by its number. *)
Definition jsstring := list N.

Definition ch (a : ascii) : N := N_of_ascii a.
Arguments ch _%_char : simpl never.

(** The string written by a source literal. *)
Definition js (s : string) : jsstring := map ch (list_ascii_of_string s).
Arguments js _%_string.

Definition jsstring_eqb (a b : jsstring) : bool :=
  if list_eq_dec N.eq_dec a b then true else false.

(** The values a parameter may hold at run time.  [JNumber] carries the
    integral numbers only and [JObject] stands for any object. *)
Inductive jsval :=
| JUndefined
| JNull
| JBool (b : bool)
| JNumber (n : Z)
| JString (s : jsstring)
| JObject.

(** [!v] is [negb (truthy v)]. *)
Definition truthy (v : jsval) : bool :=
  match v with
  | JUndefined | JNull => false
  | JBool b => b
  | JNumber n => negb (n =? 0)%Z
  | JString s => match s with [] => false | _ :: _ => true end
  | JObject => true
  end.

(** [typeof v === 'string'] *)
Definition isString (v : jsval) : bool :=
  match v with JString _ => true | _ => false end.

Definition nonEmpty (s : jsstring) : bool :=
  match s with [] => false | _ :: _ => true end.

(** [s.startsWith(p)] *)
Fixpoint startsWith (p s : jsstring) : bool :=
  match p, s with
  | [], _ => true
  | _ :: _, [] => false
  | a :: p', b :: s' => (a =? b)%N && startsWith p' s'
  end.

(** [s.replace(/pat/g, '')] for a literal, non-empty pattern: the
    matches are taken from left to right and do not overlap; the text is
    scanned once.  [skip] counts the code units of the current match that
    are still to be dropped. *)
Fixpoint removeAllFrom (pat : jsstring) (skip : nat) (s : jsstring) : jsstring :=
  match s with
  | [] => []
  | c :: s' =>
      match skip with
      | S k => removeAllFrom pat k s'
      | O => if startsWith pat s
             then removeAllFrom pat (length pat - 1) s'
             else c :: removeAllFrom pat 0 s'
      end
  end.

Definition removeAll (pat s : jsstring) : jsstring := removeAllFrom pat 0 s.

(** [s.split(sep)] for a separator of one code unit. *)
Fixpoint split (sep : N) (s : jsstring) : list jsstring :=
  match s with
  | [] => [[]]
  | c :: s' =>
      if (c =? sep)%N then [] :: split sep s'
      else match split sep s' with
           | p :: ps => (c :: p) :: ps
           | [] => [[c]]
           end
  end.

(** Character classes of the regular expressions. *)
Definition inRange (lo hi c : N) : bool := ((lo <=? c) && (c <=? hi))%N.

(** [[\0-\x1F\x7F]] *)
Definition isControl (c : N) : bool := inRange 0 31 c || (c =? 127)%N.

(** [[a-zA-Z0-9]] *)
Definition isAlnum (c : N) : bool :=
  inRange (ch "a") (ch "z") c || inRange (ch "A") (ch "Z") c
  || inRange (ch "0") (ch "9") c.

(** [[a-zA-Z0-9_-]] *)
Definition isIdChar (c : N) : bool :=
  isAlnum c || (c =? ch "_")%N || (c =? ch "-")%N.

(** ** The guard: [utils/s3-guard.js] *)

Module S3Guard.

Definition stripTraversal (s : jsstring) : jsstring :=
  let sanitized := filter (fun c => negb (isControl c)) s in
  let sanitized := removeAll (js "../") sanitized in
  let sanitized := removeAll (js "..\") sanitized in
  let sanitized := removeAll (js "/..") sanitized in
  removeAll (js "\..") sanitized.

(** [sanitizeS3Key]; [None] is [null]. *)
Definition sanitizeS3Key (s3Key : jsval) : option jsstring :=
  if negb (truthy s3Key) || negb (isString s3Key) then None
  else match s3Key with
       | JString s => Some (stripTraversal s)
       | _ => None
       end.

(** [sanitizeTenantId]; [None] is [null]. *)
Definition sanitizeTenantId (tenantId : jsval) : option jsstring :=
  if negb (truthy tenantId) || negb (isString tenantId) then None
  else match tenantId with
       | JString s =>
           let sanitized := filter isIdChar s in
           if (0 <? length sanitized)%nat then Some sanitized else None
       | _ => None
       end.

Definition validateTenantOwnership (s3Key tenantId : jsstring) : bool :=
  if negb (nonEmpty s3Key) || negb (nonEmpty tenantId) then false
  else
    match sanitizeS3Key (JString s3Key), sanitizeTenantId (JString tenantId) with
    | Some sanitizedKey, Some sanitizedTenantId =>
        if negb (nonEmpty sanitizedKey) || negb (nonEmpty sanitizedTenantId)
        then false
        else
          let expectedPrefix := js "tenants/" ++ sanitizedTenantId ++ js "/" in
          startsWith expectedPrefix sanitizedKey
    | _, _ => false
    end.

Definition validateS3KeyStructure (s3Key : jsstring) : bool :=
  if negb (nonEmpty s3Key) then false
  else
    let parts := split (ch "/") s3Key in
    if (length parts <? 4)%nat then false
    else if negb (jsstring_eqb (nth 0 parts []) (js "tenants")) then false
    else if negb (jsstring_eqb (nth 2 parts []) (js "documents")) then false
    else true.

Definition validateS3Key (s3Key tenantId : jsstring) : bool :=
  validateTenantOwnership s3Key tenantId && validateS3KeyStructure s3Key.

(** The longest prefix of code units other than [/], and what follows. *)
Fixpoint spanSegment (s : jsstring) : jsstring * jsstring :=
  match s with
  | [] => ([], [])
  | c :: s' =>
      if (c =? ch "/")%N then ([], s)
      else let (seg, rest) := spanSegment s' in (c :: seg, rest)
  end.

Fixpoint stripPrefix (p s : jsstring) : option jsstring :=
  match p, s with
  | [], _ => Some s
  | _ :: _, [] => None
  | a :: p', b :: s' => if (a =? b)%N then stripPrefix p' s' else None
  end.

(** [extractTenantId]: the group of [/^tenants\/([^\/]+)\//]. *)
Definition extractTenantId (s3Key : jsstring) : option jsstring :=
  if negb (nonEmpty s3Key) then None
  else
    match stripPrefix (js "tenants/") s3Key with
    | None => None
    | Some rest =>
        match spanSegment rest with
        | ((_ :: _) as id, c :: _) => if (c =? ch "/")%N then Some id else None
        | _ => None
        end
    end.

(** [generateSecureS3Key]; [None] stands for the thrown
    'Invalid parameters for S3 key generation'. *)
Definition generateSecureS3Key
    (tenantId documentId filename subfolder : jsstring) : option jsstring :=
  match sanitizeTenantId (JString tenantId),
        sanitizeTenantId (JString documentId),
        sanitizeS3Key (JString filename) with
  | Some sanitizedTenantId, Some sanitizedDocumentId, Some sanitizedFilename =>
      if negb (nonEmpty sanitizedFilename) then None
      else Some (js "tenants/" ++ sanitizedTenantId ++ js "/documents/"
                 ++ subfolder ++ js "/" ++ sanitizedDocumentId ++ js "/"
                 ++ sanitizedFilename)
  | _, _, _ => None
  end.

(** [guardS3Access]: [false] stands for the thrown 403 error. *)
Definition guardS3Access (s3Key tenantId : jsstring) : bool :=
  validateS3Key s3Key tenantId.

Definition validateMultipleS3Keys (s3Keys : list jsstring) (tenantId : jsstring)
  : list bool :=
  map (fun key => validateS3Key key tenantId) s3Keys.

Definition filterTenantS3Keys (s3Keys : list jsstring) (tenantId : jsstring)
  : list jsstring :=
  filter (fun key => validateS3Key key tenantId) s3Keys.

End S3Guard.

Import S3Guard.


(** A nullable string as a value. *)
Definition ofNullable (o : option jsstring) : jsval :=
  match o with Some s => JString s | None => JNull end.

(** [sanitizeS3Key(sanitizeS3Key(k))] *)
Definition sanitizeTwice (k : jsstring) : option jsstring :=
  sanitizeS3Key (ofNullable (sanitizeS3Key (JString k))).

(** ** Results of functions that may throw *)

(** [Throw m] is the [Error] with message [m]. *)
Inductive result (A : Type) :=
| Ok (a : A)
| Throw (message : string).
Arguments Ok {A} a.
Arguments Throw {A} message.

(** ** Numbers and bytes as text *)

(** A template literal applied to an integral number. *)
Definition numberToString (z : Z) : jsstring :=
  js (NilEmpty.string_of_int (Z.to_int z)).

Definition hexDigit (d : N) : N :=
  if (d <? 10)%N then (ch "0" + d)%N else (ch "a" + (d - 10))%N.

Definition hexByte (b : Byte.byte) : jsstring :=
  let n := Byte.to_N b in [hexDigit (n / 16); hexDigit (n mod 16)].

(** [buffer.toString('hex')] *)
Definition toHex (bytes : list Byte.byte) : jsstring := flat_map hexByte bytes.

(** ** The upload service *)

Module Upload.

(** [s.lastIndexOf(c)], [-1] when [c] does not occur. *)
Fixpoint lastIndexOfFrom (c : N) (i : nat) (s : jsstring) (found : Z) : Z :=
  match s with
  | [] => found
  | x :: s' =>
      lastIndexOfFrom c (S i) s' (if (x =? c)%N then Z.of_nat i else found)
  end.

Definition lastIndexOf (c : N) (s : jsstring) : Z := lastIndexOfFrom c 0 s (-1).

(** [sanitizeFilename]; [None] is [null]. *)
Definition sanitizeFilename (filename : jsstring) : option jsstring :=
  if negb (nonEmpty filename) then None
  else
    let filename := removeAll (js "../") filename in
    let filename := removeAll (js "..\") filename in
    let filename := removeAll (js "/..") filename in
    let filename := removeAll (js "\..") filename in
    let filename := filter (fun c => negb (c =? 0)%N) filename in
    let lastDotIndex := lastIndexOf (ch ".") filename in
    let (baseName, extension) :=
      if (0 <? lastDotIndex)%Z
      then (firstn (Z.to_nat lastDotIndex) filename,
            skipn (Z.to_nat lastDotIndex) filename)
      else (filename, []) in
    let baseName :=
      map (fun c => if isAlnum c || (c =? ch " ")%N || (c =? ch "_")%N
                       || (c =? ch "-")%N
                    then c else ch "_") baseName in
    let extension :=
      filter (fun c => isAlnum c || (c =? ch ".")%N) extension in
    Some (baseName ++ extension).

Section UniqueNames.

(** [path.extname] and [path.basename] of the run-time library. *)
Variable extname : jsstring -> jsstring.
Variable basename : jsstring -> jsstring -> jsstring.

(** [generateUniqueFilename] of [utils/file.js]; [timestamp] is the
    value of [Date.now()] and [random] the bytes of
    [crypto.randomBytes(8)]. *)
Definition generateUniqueFilename
    (originalName : jsstring) (timestamp : Z) (random : list Byte.byte)
  : jsstring :=
  let ext := extname originalName in
  let name := basename originalName ext in
  name ++ js "-" ++ numberToString timestamp ++ js "-" ++ toHex random ++ ext.

(** [documentId || 'temp'] *)
Definition orTemp (documentId : option jsstring) : jsstring :=
  match documentId with
  | Some ((_ :: _) as d) => d
  | _ => js "temp"
  end.

(** [generateSecureObjectKey]; a [documentId] left out or [null] is
    [None]. *)
Definition generateSecureObjectKey
    (tenantId originalFilename : jsstring) (documentId : option jsstring)
    (timestamp : Z) (random : list Byte.byte) : result jsstring :=
  if negb (nonEmpty tenantId) || negb (nonEmpty tenantId && forallb isIdChar tenantId)
  then Throw "Invalid tenant ID format"
  else
    match sanitizeFilename originalFilename with
    | None => Throw "Invalid filename"
    | Some sanitizedFilename =>
        if negb (nonEmpty sanitizedFilename) then Throw "Invalid filename"
        else
          let uniqueFilename :=
            generateUniqueFilename sanitizedFilename timestamp random in
          Ok (js "tenants/" ++ tenantId ++ js "/documents/raw/"
              ++ orTemp documentId ++ js "/" ++ uniqueFilename)
    end.

End UniqueNames.

(** The two functions of the run-time library on a name without a path
    separator and with at most one dot, not in first place, which is
    what [sanitizeFilename] returns: the extension is the text from the
    dot on, and the base name is the name without it. *)
Definition extnameOfName (name : jsstring) : jsstring :=
  let i := lastIndexOf (ch ".") name in
  if (0 <? i)%Z then skipn (Z.to_nat i) name else [].

Definition basenameOfName (name ext : jsstring) : jsstring :=
  firstn (length name - length ext) name.


End Upload.

(** ** Calls to the collaborators *)

(** The audit record of [logDeletionAudit]; [deletionTimestamp] is the
    clock value that the source prints in ISO form. *)
Record auditEntry := {
  action : string;
  entityType : string;
  entityId : jsstring;
  actorType : string;
  actorId : string;
  deletedObjectCount : nat;
  requestedDeletionCount : nat;
  deletionTimestamp : Z;
  auditTenantId : jsstring
}.

(** The metadata stored with an embedding. *)
Record embeddingMetadata := {
  metaTenantId : jsstring;
  metaDocumentId : jsstring;
  chunkIndex : nat;
  metaText : jsstring;
  source : jsstring
}.

(** The components of an embedding are not looked at. *)
Definition embedding := list Z.

(** A request sent to the object store, the database or an AI module. *)
Inductive event :=
| S3GetObject (key : jsstring)
| S3ListObjects (prefix : jsstring)
| S3DeleteObjects (keys : list jsstring)
| S3PresignGet (key : jsstring)
| ExtractText (document : list Byte.byte)
| DocumentUpdate (documentId : jsstring) (status : string)
| GenerateEmbeddings (texts : list jsstring)
| StoreEmbedding (id : jsstring) (vector : option embedding) (metadata : embeddingMetadata)
| TenantFindUnique (tenantId : jsstring)
| UserCount (tenantId : jsstring)
| AuditLogCreate (entry : auditEntry).

(** An asynchronous computation: its outcome and the requests it sent, in
    order. *)
Definition io (A : Type) : Type := result A * list event.

Definition ret {A} (a : A) : io A := (Ok a, []).

Definition throw {A} (message : string) : io A := (Throw message, []).

(** The request [e], answered by [answer]. *)
Definition call {A} (e : event) (answer : result A) : io A := (answer, [e]).

Definition bind {A B} (m : io A) (k : A -> io B) : io B :=
  match m with
  | (Ok a, t) => let (r, t') := k a in (r, t ++ t')
  | (Throw message, t) => (Throw message, t)
  end.

(** [try { m } catch (error) { handler error }] *)
Definition tryCatch {A} (m : io A) (handler : string -> io A) : io A :=
  match m with
  | (Ok a, t) => (Ok a, t)
  | (Throw message, t) => let (r, t') := handler message in (r, t ++ t')
  end.

Declare Scope io_scope.
Delimit Scope io_scope with io.
Notation "x <- m ;; k" := (bind m (fun x => k))
  (at level 61, m at next level, right associativity) : io_scope.
Notation "m ;;; k" := (bind m (fun _ => k))
  (at level 61, right associativity) : io_scope.
Open Scope io_scope.

Definition outcome {A} (m : io A) : result A := fst m.
Definition requests {A} (m : io A) : list event := snd m.

(** ** The download service *)

Module Download.

Record folder := { folderAllowedRoles : option (list jsstring) }.

Record document := {
  id : jsstring;
  tenantId : jsstring;
  deletedAt : option Z;
  storageKey : option jsstring;
  allowedRoles : option (list jsstring);
  docFolder : option folder;
  originalName : option jsstring;
  name : jsstring;
  mimeType : jsstring
}.

Record download := {
  downloadUrl : jsstring;
  documentId : jsstring;
  fileName : jsstring;
  downloadMimeType : jsstring
}.

(** [list.includes(x)] *)
Definition includes (l : list jsstring) (x : jsstring) : bool :=
  existsb (jsstring_eqb x) l.

(** [prisma.document.findFirst] with the [where] clause of
    [validateDocumentAccess]. *)
Definition findFirst (db : list document) (documentId userTenantId : jsstring)
  : option document :=
  find (fun d => jsstring_eqb (id d) documentId
                 && jsstring_eqb (tenantId d) userTenantId
                 && match deletedAt d with None => true | Some _ => false end)
       db.

Definition checkUserAccess (doc : document) (userRoles : list jsstring) : bool :=
  match allowedRoles doc with
  | Some ((_ :: _) as roles) => existsb (fun userRole => includes roles userRole) userRoles
  | _ =>
      match docFolder doc with
      | Some {| folderAllowedRoles := Some ((_ :: _) as roles) |} =>
          existsb (fun userRole => includes roles userRole) userRoles
      | _ => true
      end
  end.

(** [validateDocumentAccess]; [None] is [null]. *)
Definition validateDocumentAccess
    (db : list document) (documentId userId userTenantId : jsstring)
    (userRoles : list jsstring) : option document :=
  match findFirst db documentId userTenantId with
  | None => None
  | Some doc => if checkUserAccess doc userRoles then Some doc else None
  end.

(** The check of the download service itself, not the guard's. *)
Definition validateS3Key (s3Key : option jsstring) (userTenantId : jsstring) : bool :=
  match s3Key with
  | None | Some [] => false
  | Some s3Key =>
      if negb (nonEmpty userTenantId) then false
      else if negb (startsWith (js "tenants/" ++ userTenantId ++ js "/") s3Key)
      then false
      else
        let parts := split (ch "/") s3Key in
        if (length parts <? 4)%nat
           || negb (jsstring_eqb (nth 2 parts []) (js "documents"))
        then false
        else true
  end.

Definition orElse (a : option jsstring) (b : jsstring) : jsstring :=
  match a with
  | Some ((_ :: _) as s) => s
  | _ => b
  end.

(** [generatePresignedDownloadUrl]; [presign] answers [getSignedUrl]. *)
Definition generatePresignedDownloadUrl
    (db : list document) (presign : jsstring -> result jsstring)
    (documentId userId userTenantId : jsstring) (userRoles : list jsstring)
  : io download :=
  match validateDocumentAccess db documentId userId userTenantId userRoles with
  | None => throw "Document not found or access denied"
  | Some doc =>
      if negb (validateS3Key (storageKey doc) userTenantId)
      then throw "Invalid S3 key for tenant"
      else
        match storageKey doc with
        | None | Some [] => throw "Document does not have an S3 storage key"
        | Some key =>
            presignedUrl <- call (S3PresignGet key) (presign key) ;;
            ret {| downloadUrl := presignedUrl;
                   documentId := id doc;
                   fileName := orElse (originalName doc) (name doc);
                   downloadMimeType := mimeType doc |}
        end
  end.

End Download.

(** [list.slice(from, to)] for [from <= to] *)
Definition slice {A} (from to : nat) (l : list A) : list A :=
  firstn (to - from) (skipn from l).

(** ** The ingestion service *)

Module Ingestion.

(** The answers of the object store, the text extractor, the database,
    the embedder and the vector store. *)
Record collaborators := {
  getObject : jsstring -> result (list Byte.byte);
  extract : list Byte.byte -> result jsstring;
  documentUpdate : jsstring -> string -> result unit;
  generateEmbeddings : list jsstring -> result (list embedding);
  storeEmbedding : jsstring -> result unit
}.

Record chunk := {
  chunkId : jsstring;
  text : jsstring;
  chunkDocumentId : jsstring;
  index : nat
}.

Definition chunkSize : nat := 1000.

Definition chunkName (documentId : jsstring) (i : nat) : jsstring :=
  documentId ++ js "_chunk_" ++ numberToString (Z.of_nat i).

(** The loop of [chunkText], from position [i] on. *)
Equations? chunkLoop (text : jsstring) (documentId : jsstring)
    (i : nat) (chunks : list chunk) : list chunk
  by wf (length text - i) lt :=
  chunkLoop text documentId i chunks with lt_dec i (length text) => {
    | left _ :=
        chunkLoop text documentId (i + chunkSize)
          (chunks ++ [{| chunkId := chunkName documentId (length chunks);
                         text := slice i (i + chunkSize) text;
                         chunkDocumentId := documentId;
                         index := length chunks |}]);
    | right _ := chunks }.
Proof. unfold chunkSize. lia. Qed.

Definition chunkText (text documentId : jsstring) : list chunk :=
  chunkLoop text documentId 0 [].

(** [fetchDocumentFromS3]: the failure of the request is logged and
    thrown again. *)
Definition fetchDocumentFromS3 (c : collaborators) (s3Key : jsstring)
  : io (list Byte.byte) :=
  tryCatch (call (S3GetObject s3Key) (getObject c s3Key)) (fun error => throw error).

(** The loop that stores the embeddings, from chunk [i] on; [chunks]
    holds the chunks that are left. *)
Fixpoint storeEmbeddings (c : collaborators)
    (s3Key tenantId documentId : jsstring)
    (embeddings : list embedding) (i : nat) (chunks : list chunk) : io unit :=
  match chunks with
  | [] => ret tt
  | chunk :: chunks' =>
      let id := chunkName documentId i in
      call (StoreEmbedding id (nth_error embeddings i)
              {| metaTenantId := tenantId;
                 metaDocumentId := documentId;
                 chunkIndex := i;
                 metaText := text chunk;
                 source := s3Key |})
           (storeEmbedding c id) ;;;
      storeEmbeddings c s3Key tenantId documentId embeddings (S i) chunks'
  end.

(** [processDocument].  The handler of the outer [catch] builds the
    argument of its database update from the unbound name [document];
    the update is therefore never sent, the inner [catch] logs the
    failure, and the handler returns [false]. *)
Definition processDocument (c : collaborators)
    (s3Key tenantId documentId : jsstring) : io bool :=
  tryCatch
    (if negb (S3Guard.validateS3Key s3Key tenantId) then ret false
     else
       documentBuffer <- fetchDocumentFromS3 c s3Key ;;
       extractedText <-
         call (ExtractText documentBuffer) (extract c documentBuffer) ;;
       call (DocumentUpdate documentId "EXTRACTED")
            (documentUpdate c documentId "EXTRACTED") ;;;
       let chunks := chunkText extractedText documentId in
       embeddings <-
         call (GenerateEmbeddings (map text chunks))
              (generateEmbeddings c (map text chunks)) ;;
       storeEmbeddings c s3Key tenantId documentId embeddings 0 chunks ;;;
       call (DocumentUpdate documentId "READY")
            (documentUpdate c documentId "READY") ;;;
       ret true)
    (fun error => ret false).

End Ingestion.

(** ** The tenant deletion service *)

Module Deletion.

(** One answer of [ListObjectsV2]. *)
Record listPage := { Contents : option (list jsstring) }.

(** The answers to the successive list requests of one listing: the
    pages that carry a continuation token, then the first answer without
    one, which ends the loop, or the failure of the request. *)
Record listing := {
  continued : list listPage;
  final : result listPage
}.

(** The answer of [DeleteObjects]. *)
Record deleteReply := {
  Deleted : option (list jsstring);
  Errors : option (list jsstring)
}.

(** The answers of the database and the object store; a delete request
    is told apart by the position of its batch. *)
Record collaborators := {
  tenantFindUnique : jsstring -> result bool;
  userCount : jsstring -> result nat;
  listObjects : jsstring -> listing;
  deleteObjects : nat -> list jsstring -> result deleteReply;
  auditLogCreate : auditEntry -> result unit;
  now : Z
}.

Record deletion := {
  deletedCount : nat;
  requestedCount : option nat;
  deletionTenantId : jsstring
}.

Definition batchSize : nat := 1000.

Definition pageKeys (p : listPage) : list jsstring :=
  match Contents p with Some keys => keys | None => [] end.

(** The loop of [listTenantObjects] over the answers that are left. *)
Fixpoint listLoop (prefix : jsstring) (pages : list listPage)
    (final : result listPage) (objectKeys : list jsstring) : io (list jsstring) :=
  match pages with
  | [] =>
      response <- call (S3ListObjects prefix) final ;;
      ret (objectKeys ++ pageKeys response)
  | response :: pages' =>
      call (S3ListObjects prefix) (Ok response) ;;;
      listLoop prefix pages' final (objectKeys ++ pageKeys response)
  end.

(** [listTenantObjects]: the failure of a request is logged and thrown
    again. *)
Definition listTenantObjects (c : collaborators) (tenantId : jsstring)
  : io (list jsstring) :=
  let prefix := js "tenants/" ++ tenantId ++ js "/" in
  tryCatch
    (listLoop prefix (continued (listObjects c prefix))
              (final (listObjects c prefix)) [])
    (fun error => throw error).

(** The record that [logDeletionAudit] writes. *)
Definition deletionAuditEntry (c : collaborators) (tenantId : jsstring)
    (deletedCount requestedCount : nat) : auditEntry :=
  {| action := "TENANT_S3_DATA_DELETED";
     entityType := "tenant";
     entityId := tenantId;
     actorType := "SYSTEM";
     actorId := "SYSTEM";
     deletedObjectCount := deletedCount;
     requestedDeletionCount := requestedCount;
     deletionTimestamp := now c;
     auditTenantId := tenantId |}.

(** [logDeletionAudit]: a failure of the database is logged and not
    thrown again. *)
Definition logDeletionAudit (c : collaborators) (tenantId : jsstring)
    (deletedCount requestedCount : nat) : io unit :=
  let entry := deletionAuditEntry c tenantId deletedCount requestedCount in
  tryCatch (call (AuditLogCreate entry) (auditLogCreate c entry))
           (fun error => ret tt).

(** [deleteResult.Deleted?.length || 0] *)
Definition deletedLength (r : deleteReply) : nat :=
  match Deleted r with Some keys => length keys | None => 0 end.

(** The batch loop of [deleteTenantS3Data], from position [i] on. *)
Equations? deleteLoop (c : collaborators) (validObjects : list jsstring)
    (i totalDeleted : nat) : io nat
  by wf (length validObjects - i) lt :=
  deleteLoop c validObjects i totalDeleted with lt_dec i (length validObjects) => {
    | left _ with deleteObjects c i (slice i (i + batchSize) validObjects) => {
        | Throw message :=
            (Throw message,
             [S3DeleteObjects (slice i (i + batchSize) validObjects)]);
        | Ok deleteResult :=
            let (r, t) := deleteLoop c validObjects (i + batchSize)
                            (totalDeleted + deletedLength deleteResult) in
            (r, S3DeleteObjects (slice i (i + batchSize) validObjects) :: t) };
    | right _ := ret totalDeleted }.
Proof. unfold batchSize. lia. Qed.

Definition activeUsersMessage (activeUsers : nat) : string :=
  ("Tenant has " ++ NilEmpty.string_of_uint (Nat.to_uint activeUsers)
   ++ " active users. Use force=true to override.")%string.

(** [s.includes(c)] *)
Definition includesChar (c : N) (s : jsstring) : bool :=
  existsb (fun x => (x =? c)%N) s.

(** [deleteTenantS3Data]; its [catch] logs the error and throws it
    again. *)
Definition deleteTenantS3Data (c : collaborators) (tenantId : jsstring)
    (force : bool) : io deletion :=
  tryCatch
    (match sanitizeTenantId (JString tenantId) with
     | None => throw "Invalid tenant ID format"
     | Some _ =>
         tenant <- call (TenantFindUnique tenantId) (tenantFindUnique c tenantId) ;;
         if negb tenant then throw "Tenant not found"
         else
           activeUsers <- call (UserCount tenantId) (userCount c tenantId) ;;
           if (0 <? activeUsers)%nat && negb force
           then throw (activeUsersMessage activeUsers)
           else
             let prefix := js "tenants/" ++ tenantId ++ js "/" in
             if negb (startsWith (js "tenants/") prefix)
                || negb (includesChar (ch "/") prefix)
             then throw "Invalid S3 prefix format"
             else
               objectsToDelete <- listTenantObjects c tenantId ;;
               if (length objectsToDelete =? 0)%nat
               then ret {| deletedCount := 0;
                           requestedCount := None;
                           deletionTenantId := tenantId |}
               else
                 let validObjects := filterTenantS3Keys objectsToDelete tenantId in
                 if negb (length validObjects =? length objectsToDelete)%nat
                 then throw "Invalid objects found in tenant prefix"
                 else
                   totalDeleted <- deleteLoop c validObjects 0 0 ;;
                   logDeletionAudit c tenantId totalDeleted (length validObjects) ;;;
                   ret {| deletedCount := totalDeleted;
                          requestedCount := Some (length validObjects);
                          deletionTenantId := tenantId |}
     end)
    (fun error => throw error).

End Deletion.

(** ** Observations on the requests of a run *)

(** The batches of the delete requests, in order. *)
Definition deleteRequests (t : list event) : list (list jsstring) :=
  flat_map (fun e => match e with S3DeleteObjects keys => [keys] | _ => [] end) t.

(** The entries of the audit-log requests, in order. *)
Definition auditEntries (t : list event) : list auditEntry :=
  flat_map (fun e => match e with AuditLogCreate entry => [entry] | _ => [] end) t.

(** A backend for the examples: the tenant exists and has no active user,
    one list request returns [keys], every delete request succeeds in
    full, and the audit log accepts its entry. *)
Definition exampleBackend (keys : list jsstring) : Deletion.collaborators :=
  {| Deletion.tenantFindUnique := fun _ => Ok true;
     Deletion.userCount := fun _ => Ok 0;
     Deletion.listObjects := fun _ =>
       {| Deletion.continued := [];
          Deletion.final :=
            Ok {| Deletion.Contents :=
                    match keys with [] => None | _ :: _ => Some keys end |} |};
     Deletion.deleteObjects := fun _ batch =>
       Ok {| Deletion.Deleted := Some batch; Deletion.Errors := None |};
     Deletion.auditLogCreate := fun _ => Ok tt;
     Deletion.now := 1700000000000 |}.

(** ** Classes of code units used in the proofs *)

(** A code unit on which none of the replacements of [sanitizeS3Key] can
    start a match, [/..] apart, and which cannot continue a match of
    [/..]. *)
Definition isPlain (c : N) : bool :=
  negb (isControl c) && negb (c =? ch ".")%N && negb (c =? ch "\")%N.

Definition noSlash (s : jsstring) : bool :=
  forallb (fun c => negb (c =? ch "/")%N) s.

(** Two adjacent dots somewhere in the string. *)
Fixpoint hasDotDot (s : jsstring) : bool :=
  match s with
  | a :: ((b :: _) as s') =>
      ((a =? ch ".")%N && (b =? ch ".")%N) || hasDotDot s'
  | _ => false
  end.

(** ** The upload service: file checks and write credentials *)

Module UploadService.

(** The white space that [trim] removes. *)
Definition isWhiteSpace (c : N) : bool :=
  inRange 9 13 c || (c =? 32)%N || (c =? 160)%N || (c =? 5760)%N
  || inRange 8192 8202 c || (c =? 8232)%N || (c =? 8233)%N || (c =? 8239)%N
  || (c =? 8287)%N || (c =? 12288)%N || (c =? 65279)%N.

Fixpoint trimStart (s : jsstring) : jsstring :=
  match s with
  | c :: s' => if isWhiteSpace c then trimStart s' else s
  | [] => []
  end.

(** [s.trim()] *)
Definition trim (s : jsstring) : jsstring := rev (trimStart (rev (trimStart s))).

(** [validateTenantObjectKey] *)
Definition validateTenantObjectKey (objectKey tenantId : jsstring) : bool :=
  startsWith (js "tenants/" ++ tenantId ++ js "/") objectKey.

(** [getTenantIdFromObjectKey]: the group of [/^tenants\/([^\/]+)\//];
    [None] is [null]. *)
Definition getTenantIdFromObjectKey (objectKey : jsstring) : option jsstring :=
  match stripPrefix (js "tenants/") objectKey with
  | None => None
  | Some rest =>
      match spanSegment rest with
      | ((_ :: _) as id, c :: _) => if (c =? ch "/")%N then Some id else None
      | _ => None
      end
  end.

(** The table [mimeToExtension], in the order of the source. *)
Definition mimeToExtension : list (jsstring * list jsstring) :=
  [ (js "application/pdf", [js "pdf"]);
    (js "application/msword", [js "doc"]);
    (js "application/vnd.openxmlformats-officedocument.wordprocessingml.document",
     [js "docx"]);
    (js "text/plain", [js "txt"]);
    (js "text/markdown", [js "md"]);
    (js "application/vnd.ms-excel", [js "xls"]);
    (js "application/vnd.openxmlformats-officedocument.spreadsheetml.sheet",
     [js "xlsx"]);
    (js "text/csv", [js "csv"]);
    (js "image/png", [js "png"]);
    (js "image/jpeg", [js "jpg"; js "jpeg"]);
    (js "image/gif", [js "gif"]);
    (js "image/webp", [js "webp"]) ].

(** A write credential request sent to the object store. *)
Inductive uploadEvent :=
| S3PresignPut (key : jsstring) (contentType : jsstring).

Record upload := {
  presignedUrl : jsstring;
  objectKey : jsstring;
  filename : jsstring
}.

Section Service.

(** [String.prototype.toLowerCase] and the two functions of [path], of
    the run-time library; [env.ALLOWED_FILE_TYPES] and
    [env.MAX_FILE_SIZE], of the configuration. *)
Variable toLowerCase : jsstring -> jsstring.
Variable extname : jsstring -> jsstring.
Variable basename : jsstring -> jsstring -> jsstring.
Variable ALLOWED_FILE_TYPES : jsstring.
Variable MAX_FILE_SIZE : Z.

(** [env.ALLOWED_FILE_TYPES.split(',').map(type => type.trim())] *)
Definition allowedTypes : list jsstring :=
  map trim (split (ch ",") ALLOWED_FILE_TYPES).

(** [filename.split('.').pop().toLowerCase()] *)
Definition fileExtension (filename : jsstring) : jsstring :=
  toLowerCase (last (split (ch ".") filename) []).

(** [validateFileType] *)
Definition validateFileType (mimeType filename : jsstring) : bool :=
  let fileExtension := fileExtension filename in
  if Download.includes allowedTypes fileExtension then true
  else
    existsb
      (fun entry : jsstring * list jsstring =>
         let (mime, extensions) := entry in
         jsstring_eqb mime mimeType
         && Download.includes extensions fileExtension
         && existsb (fun allowed => Download.includes extensions allowed) allowedTypes)
      mimeToExtension.

(** [validateFileSize] *)
Definition validateFileSize (fileSize : Z) : bool := (fileSize <=? MAX_FILE_SIZE)%Z.

(** [generatePresignedUploadUrl]; [presign] answers [getSignedUrl],
    [timestamp] and [random] are the clock value and the random bytes
    read by the key generation. *)
Definition generatePresignedUploadUrl
    (presign : jsstring -> jsstring -> result jsstring)
    (tenantId originalFilename mimeType : jsstring) (fileSize : Z)
    (documentId : option jsstring) (timestamp : Z) (random : list Byte.byte)
  : result upload * list uploadEvent :=
  if negb (nonEmpty tenantId) then (Throw "Unauthorized: Missing tenant ID", [])
  else if negb (validateFileType mimeType originalFilename)
  then (Throw "File type not allowed", [])
  else if negb (validateFileSize fileSize)
  then (Throw "File size exceeds maximum allowed size", [])
  else
    match Upload.generateSecureObjectKey extname basename
            tenantId originalFilename documentId timestamp random with
    | Throw message => (Throw message, [])
    | Ok objectKey =>
        match presign objectKey mimeType with
        | Throw message => (Throw message, [S3PresignPut objectKey mimeType])
        | Ok presignedUrl =>
            (Ok {| presignedUrl := presignedUrl;
                   objectKey := objectKey;
                   filename := originalFilename |},
             [S3PresignPut objectKey mimeType])
        end
    end.

End Service.

End UploadService.

(** The code units of a sanitized file name: [[A-Za-z0-9 _.-]]. *)
Definition isNameChar (c : N) : bool :=
  isAlnum c || (c =? ch " ")%N || (c =? ch "_")%N || (c =? ch "-")%N
  || (c =? ch ".")%N.

(** The number of dots of a string. *)
Definition dots (s : jsstring) : nat := count_occ N.eq_dec s (ch ".").

(** ** The download service: existence check *)


(** ** The ingestion service: batches and listings *)

Module IngestionBatch.

(** A row of the document table, as far as the ingestion reads it. *)
Record documentRow := {
  rowId : jsstring;
  rowTenantId : jsstring;
  rowFolderId : option jsstring;
  rowStatus : string;
  rowDeletedAt : option Z;
  rowStorageKey : option jsstring
}.

(** [status: { in: ['PENDING', 'EXTRACTED'] }] *)
Definition needsProcessing (status : string) : bool :=
  String.eqb status "PENDING" || String.eqb status "EXTRACTED".

(** [prisma.document.findMany] with the [where] clause and the limit of
    [processAllTenantDocuments]. *)
Definition findTenantDocuments (db : list documentRow) (tenantId : jsstring)
  : list documentRow :=
  firstn 100
    (filter (fun d => jsstring_eqb (rowTenantId d) tenantId
                      && needsProcessing (rowStatus d)
                      && match rowDeletedAt d with None => true | Some _ => false end)
            db).


(** [document.storageKey && s3Guard.validateS3Key(document.storageKey, tenantId)] *)
Definition keyBelongs (d : documentRow) (tenantId : jsstring) : bool :=
  match rowStorageKey d with
  | Some ((_ :: _) as key) => S3Guard.validateS3Key key tenantId
  | _ => false
  end.

Definition keyOf (d : documentRow) : jsstring :=
  match rowStorageKey d with Some key => key | None => [] end.

(** The loop over the documents, the same in [processAllTenantDocuments]
    and in [processFolderDocuments] but for a log line. *)
Fixpoint processEach (c : Ingestion.collaborators) (tenantId : jsstring)
    (documents : list documentRow) (processedCount : nat) : io nat :=
  match documents with
  | [] => ret processedCount
  | document :: documents' =>
      if keyBelongs document tenantId
      then
        success <- Ingestion.processDocument c (keyOf document) tenantId
                     (rowId document) ;;
        processEach c tenantId documents'
          (if success then S processedCount else processedCount)
      else processEach c tenantId documents' processedCount
  end.

(** [processAllTenantDocuments]; its [catch] throws the error again. *)
Definition processAllTenantDocuments (c : Ingestion.collaborators)
    (db : list documentRow) (tenantId : jsstring) : io nat :=
  tryCatch (processEach c tenantId (findTenantDocuments db tenantId) 0)
           (fun error => throw error).


(** [listTenantDocuments]; [listObjectsV2] answers the list request. *)
Definition listTenantDocuments
    (listObjectsV2 : jsstring -> result Deletion.listPage)
    (tenantId subfolder : jsstring) : io (list jsstring) :=
  tryCatch
    (let prefix := js "tenants/" ++ tenantId ++ js "/documents/" ++ subfolder
                   ++ js "/" in
     response <- call (S3ListObjects prefix) (listObjectsV2 prefix) ;;
     ret (filterTenantS3Keys (Deletion.pageKeys response) tenantId))
    (fun error => throw error).

End IngestionBatch.

(** The requests that [processDocument] may send for the key [s3Key] of
    the document [documentId] of the tenant [tenantId]. *)
Definition inScope (tenantId documentId s3Key : jsstring) (e : event) : Prop :=
  match e with
  | S3GetObject key => key = s3Key
  | ExtractText _ => True
  | GenerateEmbeddings _ => True
  | DocumentUpdate d status =>
      d = documentId /\ (status = "EXTRACTED"%string \/ status = "READY"%string)
  | StoreEmbedding _ _ metadata =>
      metaTenantId metadata = tenantId
      /\ metaDocumentId metadata = documentId
      /\ source metadata = s3Key
  | _ => False
  end.

(** The keys of the read requests, in order. *)
Definition getRequests (t : list event) : list jsstring :=
  flat_map (fun e => match e with S3GetObject key => [key] | _ => [] end) t.

(** Whether the processing of a row returns [true]. *)
Definition processed (c : Ingestion.collaborators) (tenantId : jsstring)
    (d : IngestionBatch.documentRow) : bool :=
  IngestionBatch.keyBelongs d tenantId
  && match fst (Ingestion.processDocument c (IngestionBatch.keyOf d) tenantId
                  (IngestionBatch.rowId d)) with
     | Ok true => true
     | _ => false
     end.

(** The requests of the processing of a row, none when its key is
    refused. *)
Definition requestsOfRow (c : Ingestion.collaborators) (tenantId : jsstring)
    (d : IngestionBatch.documentRow) : list event :=
  if IngestionBatch.keyBelongs d tenantId
  then snd (Ingestion.processDocument c (IngestionBatch.keyOf d) tenantId
              (IngestionBatch.rowId d))
  else [].

(** Collaborators and rows for the examples of the ingestion. *)
Definition exampleIngestion : Ingestion.collaborators :=
  {| Ingestion.getObject := fun _ => Ok [Byte.x25; Byte.x50];
     Ingestion.extract := fun _ => Ok (js "text");
     Ingestion.documentUpdate := fun _ _ => Ok tt;
     Ingestion.generateEmbeddings := fun texts => Ok (map (fun _ => [0%Z]) texts);
     Ingestion.storeEmbedding := fun _ => Ok tt |}.

Definition exampleRow (i : jsstring) (folder : option jsstring) (key : jsstring)
  : IngestionBatch.documentRow :=
  {| IngestionBatch.rowId := i;
     IngestionBatch.rowTenantId := js "t_1";
     IngestionBatch.rowFolderId := folder;
     IngestionBatch.rowStatus := "PENDING";
     IngestionBatch.rowDeletedAt := None;
     IngestionBatch.rowStorageKey := Some key |}.

Definition exampleRows : list IngestionBatch.documentRow :=
  [ exampleRow (js "a") (Some (js "f_1")) (js "tenants/t_1/documents/raw/a/f.pdf");
    exampleRow (js "x") (Some (js "f_1")) (js "tenants/t_2/documents/raw/doc_x/f.pdf");
    exampleRow (js "b") None (js "tenants/t_1/documents/raw/b/g.pdf") ].

(** ** The tenant deletion service: verification and complete deletion *)

Module DeletionComplete.

(** [verifyTenantDataDeletion]: a failure of the listing is logged and
    answered by [false]. *)
Definition verifyTenantDataDeletion (c : Deletion.collaborators) (tenantId : jsstring)
  : io bool :=
  tryCatch
    (remainingObjects <- Deletion.listTenantObjects c tenantId ;;
     ret (length remainingObjects =? 0)%nat)
    (fun error => ret false).

(** A request of the database transaction of
    [deleteTenantDatabaseRecords]. *)
Inductive txEvent :=
| DocumentDeleteMany (tenantId : jsstring)
| FolderDeleteMany (tenantId : jsstring)
| UserDeleteMany (tenantId : jsstring)
| TenantDelete (tenantId : jsstring).

(** The answers of the database inside the transaction. *)
Record transaction := {
  documentDeleteMany : jsstring -> result nat;
  folderDeleteMany : jsstring -> result nat;
  userDeleteMany : jsstring -> result nat;
  tenantDelete : jsstring -> result unit
}.

Record affectedRecords := {
  documents : nat;
  folders : nat;
  users : nat;
  tenant : nat
}.

(** [deleteTenantDatabaseRecords]: the outcome and the requests sent
    inside the transaction, in order. *)
Definition deleteTenantDatabaseRecords (tx : transaction) (tenantId : jsstring)
  : result affectedRecords * list txEvent :=
  match documentDeleteMany tx tenantId with
  | Throw message => (Throw message, [DocumentDeleteMany tenantId])
  | Ok documents =>
      match folderDeleteMany tx tenantId with
      | Throw message =>
          (Throw message, [DocumentDeleteMany tenantId; FolderDeleteMany tenantId])
      | Ok folders =>
          match userDeleteMany tx tenantId with
          | Throw message =>
              (Throw message,
               [DocumentDeleteMany tenantId; FolderDeleteMany tenantId;
                UserDeleteMany tenantId])
          | Ok users =>
              match tenantDelete tx tenantId with
              | Throw message =>
                  (Throw message,
                   [DocumentDeleteMany tenantId; FolderDeleteMany tenantId;
                    UserDeleteMany tenantId; TenantDelete tenantId])
              | Ok _ =>
                  (Ok {| documents := documents; folders := folders;
                         users := users; tenant := 1 |},
                   [DocumentDeleteMany tenantId; FolderDeleteMany tenantId;
                    UserDeleteMany tenantId; TenantDelete tenantId])
              end
          end
      end
  end.

Record completeDeletion := {
  completeTenantId : jsstring;
  s3Deletion : Deletion.deletion;
  databaseDeletion : affectedRecords;
  verification : bool
}.

(** [deleteTenantComplete]: [during] holds the answers of the backend
    while the objects are deleted and [after] its answers to the
    verification that follows; the result comes with the requests sent to
    the object store and the audit log, and with those sent inside the
    transaction. *)
Definition deleteTenantComplete (during after : Deletion.collaborators)
    (tx : transaction) (tenantId : jsstring) (force : bool)
  : result completeDeletion * list event * list txEvent :=
  match Deletion.deleteTenantS3Data during tenantId force with
  | (Throw message, t) => (Throw message, t, [])
  | (Ok s3, t) =>
      match verifyTenantDataDeletion after tenantId with
      | (Throw message, t') => (Throw message, t ++ t', [])
      | (Ok verified, t') =>
          if negb verified
          then (Throw "S3 data not fully deleted, aborting", t ++ t', [])
          else
            match deleteTenantDatabaseRecords tx tenantId with
            | (Throw message, d) => (Throw message, t ++ t', d)
            | (Ok affected, d) =>
                (Ok {| completeTenantId := tenantId;
                       s3Deletion := s3;
                       databaseDeletion := affected;
                       verification := verified |},
                 t ++ t', d)
            end
      end
  end.

End DeletionComplete.

(** The keys of the list requests' prefixes, in order. *)
Definition listRequests (t : list event) : list jsstring :=
  flat_map (fun e => match e with S3ListObjects prefix => [prefix] | _ => [] end) t.
Example build_raw :
  generateSecureS3Key (js "t_123") (js "doc_456") (js "report.pdf") (js "raw")
  = Some (js "tenants/t_123/documents/raw/doc_456/report.pdf").
Proof. reflexivity. Qed.

Example structure_three_segments :
  validateS3KeyStructure (js "invalid/key/format") = false.
Proof. reflexivity. Qed.

Example split_examples :
  split (ch "/") (js "a//b") = [js "a"; []; js "b"]
  /\ split (ch "/") [] = [[]]
  /\ split (ch "/") (js "tenants/t_1/") = [js "tenants"; js "t_1"; []].
Proof. repeat split. Qed.

Example removeAll_examples :
  removeAll (js "../") (js "a/../../b") = js "a/b"
  /\ removeAll (js "../") (js "..././") = js "../"
  /\ removeAll (js "/..") (js "a/../..") = js "a".
Proof. repeat split. Qed.

Example extractTenantId_examples :
  extractTenantId (js "tenants/t_1/documents/raw/d/f.pdf") = Some (js "t_1")
  /\ extractTenantId (js "tenants//documents") = None
  /\ extractTenantId (js "tenants/t_1") = None
  /\ extractTenantId (js "x/tenants/t_1/") = None.
Proof. repeat split. Qed.

Example nested_traversal :
  sanitizeS3Key (JString (js "....//")) = Some (js "../").
Proof. reflexivity. Qed.

(** ** Facts on strings *)

Ltac char_facts :=
  unfold isIdChar, isAlnum, isControl, inRange, ch in *; simpl N_of_ascii in *;
  repeat match goal with
         | H : _ && _ = true |- _ => apply andb_true_iff in H; destruct H
         | H : _ || _ = true |- _ => apply orb_true_iff in H; destruct H
         | H : _ || _ = false |- _ => apply orb_false_iff in H; destruct H
         | H : negb _ = true |- _ => apply negb_true_iff in H
         | H : negb _ = false |- _ => apply negb_false_iff in H
         | H : (_ <=? _)%N = true |- _ => apply N.leb_le in H
         | H : (_ <=? _)%N = false |- _ => apply N.leb_gt in H
         | H : (_ =? _)%N = true |- _ => apply N.eqb_eq in H
         | H : (_ =? _)%N = false |- _ => apply N.eqb_neq in H
         end.

Lemma isIdChar_plain c : isIdChar c = true -> isPlain c = true.
Proof.
  intros H. unfold isPlain.
  rewrite !andb_true_iff, !negb_true_iff.
  unfold isControl at 1, inRange.
  rewrite orb_false_iff, andb_false_iff, !N.eqb_neq, !N.leb_gt.
  char_facts; repeat split; try right; lia.
Qed.

Lemma isIdChar_not_slash c : isIdChar c = true -> (c =? ch "/")%N = false.
Proof. intros H. apply N.eqb_neq. char_facts; lia. Qed.

Lemma jsstring_eqb_eq a b : jsstring_eqb a b = true <-> a = b.
Proof.
  unfold jsstring_eqb. destruct (list_eq_dec N.eq_dec a b); split; congruence.
Qed.

Lemma startsWith_app p s : startsWith p (p ++ s) = true.
Proof. induction p as [|a p IH]; simpl; [reflexivity|]. now rewrite N.eqb_refl. Qed.

Lemma startsWith_inv p s : startsWith p s = true -> exists r, s = p ++ r.
Proof.
  revert s. induction p as [|a p IH]; intros s H; simpl in *.
  - now exists s.
  - destruct s as [|b s]; [discriminate|].
    apply andb_true_iff in H. destruct H as [Hab H].
    apply N.eqb_eq in Hab. subst b.
    destruct (IH _ H) as [r ->]. now exists r.
Qed.

Lemma filter_id {A : Type} (f : A -> bool) l : forallb f l = true -> filter f l = l.
Proof.
  induction l as [|a l IH]; simpl; [reflexivity|].
  intros H. apply andb_true_iff in H. destruct H as [Ha Hl].
  rewrite Ha. f_equal. auto.
Qed.

Lemma forallb_filter_self {A : Type} (f : A -> bool) l : forallb f (filter f l) = true.
Proof.
  induction l as [|a l IH]; simpl; [reflexivity|].
  destruct (f a) eqn:E; simpl; [rewrite E|]; auto.
Qed.

(** A replacement whose pattern starts with a code unit absent from [p]
    leaves the prefix [p] in place. *)
Lemma removeAll_prefix a pat p s :
  forallb (fun c => negb (a =? c)%N) p = true ->
  removeAll (a :: pat) (p ++ s) = p ++ removeAll (a :: pat) s.
Proof.
  unfold removeAll. induction p as [|c p IH]; simpl; [reflexivity|].
  intros H. apply andb_true_iff in H. destruct H as [Hc Hp].
  apply negb_true_iff in Hc. rewrite Hc. simpl. f_equal. auto.
Qed.

(** A replacement whose pattern has second code unit [b] leaves in place a
    prefix free of [b] that is followed by a code unit other than [b]. *)
Lemma removeAll_prefix2 a b pat p z s :
  forallb (fun c => negb (b =? c)%N) p = true ->
  (b =? z)%N = false ->
  removeAll (a :: b :: pat) (p ++ z :: s) = p ++ removeAll (a :: b :: pat) (z :: s).
Proof.
  unfold removeAll. intros Hp Hz. induction p as [|c p IH]; [reflexivity|].
  simpl in Hp. apply andb_true_iff in Hp. destruct Hp as [Hc Hp].
  specialize (IH Hp). apply negb_true_iff in Hc.
  change ((c :: p) ++ z :: s) with (c :: (p ++ z :: s)).
  cbn [removeAllFrom].
  assert (E : startsWith (a :: b :: pat) (c :: p ++ z :: s) = false).
  { cbn [startsWith]. destruct p as [|d p]; cbn [app].
    - rewrite Hz. now rewrite andb_false_r.
    - simpl in Hp. apply andb_true_iff in Hp. destruct Hp as [Hd _].
      apply negb_true_iff in Hd. rewrite Hd. now rewrite andb_false_r. }
  rewrite E. simpl. f_equal. exact IH.
Qed.

Lemma isPlain_forallb (P : N -> bool) p :
  (forall c, isPlain c = true -> P c = true) ->
  forallb isPlain p = true -> forallb P p = true.
Proof.
  intros HP. induction p as [|c p IH]; simpl; [reflexivity|].
  intros H. apply andb_true_iff in H. destruct H as [Hc Hp].
  rewrite (HP _ Hc). auto.
Qed.

Lemma isPlain_not_control c : isPlain c = true -> negb (isControl c) = true.
Proof. unfold isPlain. intros H. now repeat (apply andb_true_iff in H; destruct H as [H ?]). Qed.

Lemma isPlain_not_dot c : isPlain c = true -> negb (ch "." =? c)%N = true.
Proof.
  unfold isPlain. intros H. repeat (apply andb_true_iff in H; destruct H as [H ?]).
  now rewrite N.eqb_sym.
Qed.

Lemma isPlain_not_backslash c : isPlain c = true -> negb (ch "\" =? c)%N = true.
Proof.
  unfold isPlain. intros H. repeat (apply andb_true_iff in H; destruct H as [H ?]).
  now rewrite N.eqb_sym.
Qed.

(** [sanitizeS3Key] keeps a prefix of plain code units that is followed by
    a plain code unit other than [/]. *)
Lemma stripTraversal_prefix p z s :
  forallb isPlain p = true -> isPlain z = true -> (z =? ch "/")%N = false ->
  exists r, stripTraversal (p ++ z :: s) = p ++ z :: r.
Proof.
  intros Hp Hz Hslash. unfold stripTraversal.
  assert (Hpz : forallb isPlain (p ++ [z]) = true).
  { rewrite forallb_app, Hp. simpl. now rewrite Hz. }
  replace (p ++ z :: s) with ((p ++ [z]) ++ s) by now rewrite <- app_assoc.
  rewrite filter_app.
  rewrite (filter_id _ (p ++ [z]))
    by (apply isPlain_forallb with (P := fun c => negb (isControl c));
        auto using isPlain_not_control).
  set (s1 := filter _ s).
  change (js "../") with (ch "." :: js "./").
  rewrite removeAll_prefix
    by (apply (isPlain_forallb (fun c => negb (ch "." =? c)%N));
        auto using isPlain_not_dot).
  set (s2 := removeAll _ s1).
  change (js "..\") with (ch "." :: js ".\").
  rewrite removeAll_prefix
    by (apply (isPlain_forallb (fun c => negb (ch "." =? c)%N));
        auto using isPlain_not_dot).
  set (s3 := removeAll _ s2).
  rewrite <- app_assoc. cbn [app].
  change (js "/..") with (ch "/" :: ch "." :: js ".").
  rewrite removeAll_prefix2.
  2:{ apply (isPlain_forallb (fun c => negb (ch "." =? c)%N));
      auto using isPlain_not_dot. }
  2:{ apply negb_true_iff. now apply isPlain_not_dot. }
  assert (E : removeAll (ch "/" :: ch "." :: js ".") (z :: s3)
              = z :: removeAll (ch "/" :: ch "." :: js ".") s3).
  { unfold removeAll. cbn [removeAllFrom startsWith].
    rewrite (N.eqb_sym (ch "/") z), Hslash. reflexivity. }
  rewrite E. set (s4 := removeAll _ s3).
  replace (p ++ z :: s4) with ((p ++ [z]) ++ s4) by now rewrite <- app_assoc.
  change (js "\..") with (ch "\" :: js "..").
  rewrite removeAll_prefix
    by (apply (isPlain_forallb (fun c => negb (ch "\" =? c)%N));
        auto using isPlain_not_backslash).
  rewrite <- app_assoc. cbn [app]. eauto.
Qed.

Lemma idChars_noSlash s : forallb isIdChar s = true -> noSlash s = true.
Proof.
  unfold noSlash. induction s as [|c s IH]; simpl; [reflexivity|].
  intros H. apply andb_true_iff in H. destruct H as [Hc Hs].
  now rewrite (isIdChar_not_slash _ Hc), IH.
Qed.

Lemma idChars_plain s : forallb isIdChar s = true -> forallb isPlain s = true.
Proof.
  induction s as [|c s IH]; simpl; [reflexivity|].
  intros H. apply andb_true_iff in H. destruct H as [Hc Hs].
  now rewrite (isIdChar_plain _ Hc), IH.
Qed.

Lemma split_nonnil sep s : split sep s <> [].
Proof.
  destruct s as [|c s]; simpl; [discriminate|].
  destruct (c =? sep)%N; [discriminate|]. destruct (split sep s); discriminate.
Qed.

Lemma split_segment seg rest :
  noSlash seg = true ->
  split (ch "/") (seg ++ ch "/" :: rest) = seg :: split (ch "/") rest.
Proof.
  unfold noSlash. induction seg as [|c seg IH]; intros H.
  - reflexivity.
  - simpl in H. apply andb_true_iff in H. destruct H as [Hc Hs].
    apply negb_true_iff in Hc. cbn [app split]. rewrite Hc, (IH Hs). reflexivity.
Qed.

(** The first part of a split is a prefix of the string. *)
Lemma split_head s seg more :
  split (ch "/") s = seg :: more -> exists r, s = seg ++ r.
Proof.
  revert seg more. induction s as [|c s IH]; simpl; intros seg more H.
  - injection H as <- _. now exists [].
  - destruct (c =? ch "/")%N.
    + injection H as <- _. now exists (c :: s).
    + destruct (split (ch "/") s) as [|p ps] eqn:E.
      * now destruct (split_nonnil _ _ E).
      * injection H as <- _. destruct (IH _ _ eq_refl) as [r ->]. now exists r.
Qed.

Lemma stripPrefix_inv p s r : stripPrefix p s = Some r -> s = p ++ r.
Proof.
  revert s. induction p as [|a p IH]; intros s H; simpl in *.
  - congruence.
  - destruct s as [|b s]; [discriminate|].
    destruct (a =? b)%N eqn:E; [|discriminate].
    apply N.eqb_eq in E. subst b. now rewrite (IH _ H).
Qed.

Lemma spanSegment_inv s seg rest :
  spanSegment s = (seg, rest) -> s = seg ++ rest /\ noSlash seg = true.
Proof.
  revert seg rest. induction s as [|c s IH]; simpl; intros seg rest H.
  - injection H as <- <-. now split.
  - destruct (c =? ch "/")%N eqn:E.
    + injection H as <- <-. now split.
    + destruct (spanSegment s) as [seg' rest'] eqn:Es.
      injection H as <- <-. destruct (IH _ _ eq_refl) as [-> Hn].
      split; [reflexivity|]. unfold noSlash in *. simpl. now rewrite E, Hn.
Qed.

(** What a successful match of [/^tenants\/([^\/]+)\//] says of the key. *)
Lemma extractTenantId_inv k A :
  extractTenantId k = Some A ->
  exists rest, k = js "tenants/" ++ A ++ ch "/" :: rest
               /\ A <> [] /\ noSlash A = true.
Proof.
  unfold extractTenantId. destruct (negb (nonEmpty k)); [discriminate|].
  destruct (stripPrefix (js "tenants/") k) as [r|] eqn:Ep; [|discriminate].
  apply stripPrefix_inv in Ep.
  destruct (spanSegment r) as [seg rest] eqn:Es.
  apply spanSegment_inv in Es. destruct Es as [-> Hn].
  destruct seg as [|a seg]; [discriminate|].
  destruct rest as [|c rest]; [discriminate|].
  destruct (c =? ch "/")%N eqn:Ec; [|discriminate].
  apply N.eqb_eq in Ec. subst c. intros H. injection H as <-.
  exists rest. split; [exact Ep|]. split; [discriminate | exact Hn].
Qed.

(** The tenant identifiers that [sanitizeTenantId] accepts. *)
Lemma sanitizeTenantId_inv t s :
  sanitizeTenantId (JString t) = Some s ->
  s = filter isIdChar t /\ s <> [] /\ forallb isIdChar s = true.
Proof.
  unfold sanitizeTenantId.
  destruct (negb (truthy (JString t)) || negb (isString (JString t))); [discriminate|].
  destruct (filter isIdChar t) as [|c l] eqn:E; simpl; [discriminate|].
  intros H. injection H as <-. rewrite <- E.
  repeat split; [now rewrite E | apply forallb_filter_self].
Qed.

Lemma sanitizeTenantId_clean t :
  t <> [] -> forallb isIdChar t = true -> sanitizeTenantId (JString t) = Some t.
Proof.
  intros Hne Hid. unfold sanitizeTenantId.
  destruct t as [|c t]; [congruence|]. simpl truthy. simpl isString.
  cbn [negb orb]. rewrite (filter_id _ _ Hid). reflexivity.
Qed.

(** Two segments free of [/], each followed by [/], of which one string
    starts with the other, are equal. *)
Lemma segment_prefix_eq a b r :
  noSlash a = true -> noSlash b = true ->
  startsWith (b ++ [ch "/"]) (a ++ ch "/" :: r) = true -> b = a.
Proof.
  unfold noSlash. revert b. induction a as [|x a IH]; intros b Ha Hb H.
  - destruct b as [|y b]; [reflexivity|]. cbn [app startsWith forallb] in *.
    apply andb_true_iff in Hb. destruct Hb as [Hy _].
    apply andb_true_iff in H. destruct H as [H _].
    rewrite H in Hy. discriminate.
  - cbn [forallb] in Ha. apply andb_true_iff in Ha. destruct Ha as [Hx Ha].
    destruct b as [|y b]; cbn [app startsWith forallb] in *.
    + apply andb_true_iff in H. destruct H as [H _].
      rewrite N.eqb_sym, H in Hx. discriminate.
    + apply andb_true_iff in Hb. destruct Hb as [_ Hb].
      apply andb_true_iff in H. destruct H as [Hxy H].
      apply N.eqb_eq in Hxy. subst y. f_equal. now apply IH.
Qed.

(** The sanitized form of a key laid out as [tenants/{id}/] followed by a
    plain code unit keeps that prefix. *)
Lemma stripTraversal_tenant_prefix A z r :
  forallb isIdChar A = true -> isPlain z = true -> (z =? ch "/")%N = false ->
  exists r', stripTraversal (js "tenants/" ++ A ++ ch "/" :: z :: r)
             = js "tenants/" ++ A ++ ch "/" :: z :: r'.
Proof.
  intros HA Hz Hs.
  destruct (@stripTraversal_prefix (js "tenants/" ++ A ++ js "/") z r) as [r' E];
    try assumption.
  - rewrite !forallb_app, (idChars_plain _ HA). reflexivity.
  - exists r'. rewrite <- !app_assoc in E. exact E.
Qed.

Lemma startsWith_app_same p x y : startsWith (p ++ x) (p ++ y) = startsWith x y.
Proof. induction p as [|a p IH]; simpl; [reflexivity|]. now rewrite N.eqb_refl. Qed.

Lemma sanitizeTenantId_nonempty t s :
  sanitizeTenantId (JString t) = Some s -> nonEmpty t = true /\ nonEmpty s = true.
Proof.
  intros H. destruct (sanitizeTenantId_inv _ _ H) as (E & Hne & _).
  split.
  - destruct t; [now rewrite E in Hne|reflexivity].
  - destruct s; [congruence|reflexivity].
Qed.

(** The ownership check on a key laid out as [tenants/{A}/] followed by a
    plain code unit, [A] being a sanitized identifier: it succeeds exactly
    for the tenant identifiers whose sanitized form is [A]. *)
Lemma validateTenantOwnership_canonical A z r B :
  forallb isIdChar A = true -> isPlain z = true -> (z =? ch "/")%N = false ->
  validateTenantOwnership (js "tenants/" ++ A ++ ch "/" :: z :: r) B = true ->
  sanitizeTenantId (JString B) = Some A.
Proof.
  intros HA Hz Hs. unfold validateTenantOwnership.
  destruct (negb (nonEmpty _) || negb (nonEmpty B)); [discriminate|].
  change (sanitizeS3Key (JString (js "tenants/" ++ A ++ ch "/" :: z :: r)))
    with (Some (stripTraversal (js "tenants/" ++ A ++ ch "/" :: z :: r))).
  destruct (stripTraversal_tenant_prefix A z r HA Hz Hs) as [r' ->].
  destruct (sanitizeTenantId (JString B)) as [B'|] eqn:EB; [|discriminate].
  destruct (negb (nonEmpty _) || negb (nonEmpty B')); [discriminate|].
  rewrite startsWith_app_same. intros H.
  destruct (sanitizeTenantId_inv _ _ EB) as (_ & _ & HB).
  f_equal. apply segment_prefix_eq with (r := z :: r'); auto using idChars_noSlash.
Qed.

Lemma validateTenantOwnership_canonical_self A z r t :
  sanitizeTenantId (JString t) = Some A ->
  isPlain z = true -> (z =? ch "/")%N = false ->
  validateTenantOwnership (js "tenants/" ++ A ++ ch "/" :: z :: r) t = true.
Proof.
  intros Ht Hz Hs. unfold validateTenantOwnership.
  destruct (sanitizeTenantId_nonempty _ _ Ht) as [Hne HneA].
  destruct (sanitizeTenantId_inv _ _ Ht) as (_ & _ & HA).
  rewrite Hne.
  change (nonEmpty (js "tenants/" ++ A ++ ch "/" :: z :: r)) with true.
  cbn [negb orb].
  change (sanitizeS3Key (JString (js "tenants/" ++ A ++ ch "/" :: z :: r)))
    with (Some (stripTraversal (js "tenants/" ++ A ++ ch "/" :: z :: r))).
  destruct (stripTraversal_tenant_prefix A z r HA Hz Hs) as [r' ->].
  rewrite Ht, HneA.
  change (nonEmpty (js "tenants/" ++ A ++ ch "/" :: z :: r')) with true.
  cbn [negb orb].
  rewrite startsWith_app_same.
  change (ch "/" :: z :: r') with (js "/" ++ z :: r').
  rewrite app_assoc. apply startsWith_app.
Qed.

(** ** The guard *)

Lemma split_canonical T rest :
  noSlash T = true ->
  split (ch "/") (js "tenants/" ++ T ++ js "/documents/" ++ rest)
  = js "tenants" :: T :: js "documents" :: split (ch "/") rest.
Proof.
  intros HT.
  change (js "tenants/" ++ T ++ js "/documents/" ++ rest)
    with (js "tenants" ++ ch "/" :: T ++ ch "/" :: js "documents" ++ ch "/" :: rest).
  rewrite split_segment by reflexivity.
  rewrite split_segment by assumption.
  rewrite split_segment by reflexivity.
  reflexivity.
Qed.

Lemma validateS3KeyStructure_canonical T rest :
  noSlash T = true ->
  validateS3KeyStructure (js "tenants/" ++ T ++ js "/documents/" ++ rest) = true.
Proof.
  intros HT. unfold validateS3KeyStructure.
  change (nonEmpty (js "tenants/" ++ T ++ js "/documents/" ++ rest)) with true.
  cbn [negb]. rewrite split_canonical by assumption.
  destruct (split (ch "/") rest) as [|p ps] eqn:E; [now destruct (split_nonnil _ _ E)|].
  reflexivity.
Qed.

(** A key in the canonical layout validates for every tenant identifier
    that sanitizes to its tenant segment. *)
Lemma validateS3Key_canonical t T rest :
  sanitizeTenantId (JString t) = Some T ->
  validateS3Key (js "tenants/" ++ T ++ js "/documents/" ++ rest) t = true.
Proof.
  intros Ht. unfold validateS3Key.
  destruct (sanitizeTenantId_inv _ _ Ht) as (_ & _ & HT).
  rewrite validateS3KeyStructure_canonical by auto using idChars_noSlash.
  rewrite andb_true_r.
  change (js "tenants/" ++ T ++ js "/documents/" ++ rest)
    with (js "tenants/" ++ T ++ ch "/" :: ch "d" :: js "ocuments/" ++ rest).
  apply validateTenantOwnership_canonical_self; auto.
Qed.

(** A key that extracts to [A] and passes the structure check starts with
    [tenants/{A}/documents]. *)
Lemma structure_of_extracted k A :
  extractTenantId k = Some A -> validateS3KeyStructure k = true ->
  exists r, k = js "tenants/" ++ A ++ ch "/" :: ch "d" :: js "ocuments" ++ r.
Proof.
  intros He Hs. destruct (extractTenantId_inv _ _ He) as (rest & -> & _ & HA).
  unfold validateS3KeyStructure in Hs.
  destruct (negb (nonEmpty _)); [discriminate|].
  change (js "tenants/" ++ A ++ ch "/" :: rest)
    with (js "tenants" ++ ch "/" :: A ++ ch "/" :: rest) in Hs.
  rewrite split_segment in Hs by reflexivity.
  rewrite split_segment in Hs by assumption.
  destruct (_ <? 4)%nat; [discriminate|].
  destruct (negb (jsstring_eqb _ (js "tenants"))); [discriminate|].
  destruct (split (ch "/") rest) as [|p ps] eqn:E; [now destruct (split_nonnil _ _ E)|].
  cbn [nth] in Hs.
  destruct (jsstring_eqb p (js "documents")) eqn:Ed; [|discriminate].
  apply jsstring_eqb_eq in Ed. subst p.
  destruct (split_head _ _ _ E) as [r ->]. now exists r.
Qed.

(** A key whose extracted tenant identifier [A] is a sanitized identifier
    does not validate for an identifier whose sanitized form is not [A]. *)
Lemma validateS3Key_foreign (k A B : jsstring) :
  extractTenantId k = Some A ->
  sanitizeTenantId (JString A) = Some A ->
  sanitizeTenantId (JString B) <> Some A ->
  validateS3Key k B = false.
Proof.
  intros He HA HB. destruct (validateS3Key k B) eqn:E; [exfalso|reflexivity].
  unfold validateS3Key in E. apply andb_true_iff in E. destruct E as [Ho Hs].
  destruct (structure_of_extracted _ _ He Hs) as [r ->].
  destruct (sanitizeTenantId_inv _ _ HA) as (_ & _ & Hid).
  apply HB. eapply validateTenantOwnership_canonical; eauto; reflexivity.
Qed.




(** The ownership check reads the sanitized key and the structure check
    the raw one: a control code unit in the tenant segment is invisible
    to the former. *)
Example cross_tenant_control_unit :
  let k := js "tenants/" ++ [1%N] ++ js "t_2/documents/raw/f" in
  extractTenantId k = Some (1%N :: js "t_2") /\ validateS3Key k (js "t_2") = true.
Proof. split; reflexivity. Qed.

(** Without the structure check a traversal sequence after the tenant
    segment would move a key into another tenant's prefix. *)
Example ownership_needs_structure :
  let k := js "tenants/t/..1/documents/raw/f" in
  extractTenantId k = Some (js "t")
  /\ validateTenantOwnership k (js "t1") = true
  /\ validateS3Key k (js "t1") = false.
Proof. repeat split. Qed.

(** C2: every key that [generateSecureS3Key] builds validates for the
    tenant identifier it was built from, whatever the stage; the key built
    from ("t_123", "doc_456", "report.pdf", "raw") is
    "tenants/t_123/documents/raw/doc_456/report.pdf", which validates for
    "t_123" and not for "t_456". *)
Theorem build_validate_roundtrip :
  (forall tenantId documentId filename stage key,
      generateSecureS3Key tenantId documentId filename stage = Some key ->
      validateS3Key key tenantId = true)
  /\ generateSecureS3Key (js "t_123") (js "doc_456") (js "report.pdf") (js "raw")
     = Some (js "tenants/t_123/documents/raw/doc_456/report.pdf")
  /\ validateS3Key (js "tenants/t_123/documents/raw/doc_456/report.pdf") (js "t_123")
     = true
  /\ validateS3Key (js "tenants/t_123/documents/raw/doc_456/report.pdf") (js "t_456")
     = false.
Proof.
  split; [|repeat split].
  intros t d f stage key. unfold generateSecureS3Key.
  destruct (sanitizeTenantId (JString t)) as [T|] eqn:Et; [|discriminate].
  destruct (sanitizeTenantId (JString d)) as [D|]; [|discriminate].
  destruct (sanitizeS3Key (JString f)) as [F|]; [|discriminate].
  destruct (negb (nonEmpty F)); [discriminate|].
  intros H. injection H as <-. now apply validateS3Key_canonical.
Qed.

Lemma build_validate_roundtrip_witness :
  generateSecureS3Key (js "acme-1") (js "d_9") (js "notes.txt") (js "chunks")
  = Some (js "tenants/acme-1/documents/chunks/d_9/notes.txt")
  /\ validateS3Key (js "tenants/acme-1/documents/chunks/d_9/notes.txt") (js "acme-1")
     = true.
Proof.
  split; [reflexivity|].
  apply (proj1 build_validate_roundtrip
           (js "acme-1") (js "d_9") (js "notes.txt") (js "chunks")).
  reflexivity.
Defined.

(** C8 (as amended): on a non-empty string [sanitizeS3Key] returns a
    string, possibly the empty one, and never null; on every other input
    (the empty string, a value that is not a string) it returns null. *)
Theorem sanitizeS3Key_null_cases (v : jsval) :
  (truthy v && isString v = true -> exists r, sanitizeS3Key v = Some r)
  /\ (truthy v && isString v = false -> sanitizeS3Key v = None).
Proof.
  unfold sanitizeS3Key.
  destruct v as [| |b|n|s|]; simpl; try (split; [discriminate|reflexivity]).
  - destruct b; split; (discriminate || reflexivity).
  - destruct (negb (n =? 0)%Z); split; (discriminate || reflexivity).
  - destruct s as [|c s]; simpl; split; try discriminate; try reflexivity.
    intros _. eexists. reflexivity.
Qed.

Lemma sanitizeS3Key_null_cases_witness :
  truthy (JString (js "../")) && isString (JString (js "../")) = true
  /\ exists r, sanitizeS3Key (JString (js "../")) = Some r.
Proof.
  split; [reflexivity|].
  apply (proj1 (sanitizeS3Key_null_cases (JString (js "../")))). reflexivity.
Defined.

Example sanitizeS3Key_empty_result : sanitizeS3Key (JString (js "../")) = Some [].
Proof. reflexivity. Qed.

(** C8 (as stated) fails: the empty string is answered by null. *)
Lemma sanitizeS3Key_empty_is_null : sanitizeS3Key (JString []) = None.
Proof. reflexivity. Qed.

(** C9: the replacements scan the key once, so a nested sequence leaves a
    traversal sequence behind: "....//" sanitizes to "../", which
    sanitizes to the empty string. *)
Theorem sanitizeS3Key_not_idempotent :
  sanitizeS3Key (JString (js "....//")) = Some (js "../")
  /\ sanitizeTwice (js "....//") = Some []
  /\ sanitizeTwice (js "....//") <> sanitizeS3Key (JString (js "....//")).
Proof. repeat split. vm_compute. discriminate. Qed.

(** ** The upload service *)

Import Upload.

Example orTemp_cases :
  orTemp None = js "temp" /\ orTemp (Some []) = js "temp"
  /\ orTemp (Some (js "doc_456")) = js "doc_456".
Proof. repeat split. Qed.

Example sanitizeFilename_traversal :
  sanitizeFilename (js "../../secret.pdf") = Some (js "secret.pdf").
Proof. reflexivity. Qed.

Example upload_key_example :
  generateSecureObjectKey extnameOfName basenameOfName
    (js "t_1") (js "../../secret.pdf") None 1700000000000
    [Byte.x00; Byte.x01; Byte.x7f; Byte.x80; Byte.xab; Byte.xcd; Byte.xef; Byte.xff]
  = Ok (js "tenants/t_1/documents/raw/temp/secret-1700000000000-00017f80abcdefff.pdf").
Proof. reflexivity. Qed.









Section UploadFacts.

Variable extname : jsstring -> jsstring.
Variable basename : jsstring -> jsstring -> jsstring.

Let genKey := generateSecureObjectKey extname basename.
Let uniqueName := generateUniqueFilename extname basename.

(** What a successful key generation says of its arguments. *)
Lemma generateSecureObjectKey_inv t f d ts r key :
  genKey t f d ts r = Ok key ->
  sanitizeTenantId (JString t) = Some t
  /\ exists sanitized,
      sanitizeFilename f = Some sanitized
      /\ key = js "tenants/" ++ t ++ js "/documents/raw/" ++ orTemp d ++ js "/"
               ++ uniqueName sanitized ts r.
Proof.
  unfold genKey, generateSecureObjectKey.
  destruct (nonEmpty t) eqn:Hne; cbn [negb andb orb]; [|discriminate].
  destruct (forallb isIdChar t) eqn:Hid; cbn [negb]; [|discriminate].
  destruct (sanitizeFilename f) as [s|]; [|discriminate].
  destruct (negb (nonEmpty s)); [discriminate|].
  intros H. injection H as <-. split.
  - apply sanitizeTenantId_clean; [|assumption]. now destruct t.
  - now exists s.
Qed.


Lemma generateSecureObjectKey_validates t f d ts r key :
  genKey t f d ts r = Ok key -> validateS3Key key t = true.
Proof.
  intros H. destruct (generateSecureObjectKey_inv _ _ _ _ _ _ H) as (Ht & s & _ & ->).
  change (js "tenants/" ++ t ++ js "/documents/raw/" ++ orTemp d ++ js "/"
          ++ uniqueName s ts r)
    with (js "tenants/" ++ t ++ js "/documents/"
          ++ (js "raw/" ++ orTemp d ++ js "/" ++ uniqueName s ts r)).
  now apply validateS3Key_canonical.
Qed.



End UploadFacts.





(** ** The download service *)

Import Download.

Lemma findFirst_none db documentId userTenantId :
  (forall d, In d db -> id d = documentId -> deletedAt d = None ->
             tenantId d <> userTenantId) ->
  findFirst db documentId userTenantId = None.
Proof.
  intros H. unfold findFirst.
  destruct (find _ db) as [d|] eqn:E; [exfalso|reflexivity].
  apply find_some in E. destruct E as [Hin Hd].
  apply andb_true_iff in Hd. destruct Hd as [Hd Hdel].
  apply andb_true_iff in Hd. destruct Hd as [Hid Hten].
  apply jsstring_eqb_eq in Hid, Hten.
  destruct (deletedAt d) eqn:Ed; [discriminate|].
  exact (H d Hin Hid Ed Hten).
Qed.

(** C5: a request for a document that is not in the database and a
    request for a document that another tenant owns end alike: both throw
    'Document not found or access denied', and neither sends a request to
    the object store. *)
Theorem download_existence_not_leaked
    (dbMissing dbForeign : list document) (presign : jsstring -> result jsstring)
    (documentId userId userTenantId : jsstring) (userRoles : list jsstring) :
  (forall d, In d dbMissing -> id d <> documentId) ->
  (forall d, In d dbForeign -> id d = documentId -> tenantId d <> userTenantId) ->
  generatePresignedDownloadUrl dbMissing presign documentId userId userTenantId userRoles
  = (Throw "Document not found or access denied", [])
  /\ generatePresignedDownloadUrl dbForeign presign documentId userId userTenantId userRoles
     = (Throw "Document not found or access denied", []).
Proof.
  intros Hm Hf. unfold generatePresignedDownloadUrl, validateDocumentAccess.
  rewrite !findFirst_none; [split; reflexivity| |].
  - intros d Hin Hid _. now apply Hf.
  - intros d Hin Hid _ _. now apply (Hm d).
Qed.

Lemma download_existence_not_leaked_witness :
  let owned := {| id := js "doc_1"; tenantId := js "t_1"; deletedAt := None;
                  storageKey := Some (js "tenants/t_1/documents/raw/doc_1/a.pdf");
                  allowedRoles := None; docFolder := None;
                  originalName := Some (js "a.pdf"); name := js "a.pdf";
                  mimeType := js "application/pdf" |} in
  let presign := fun key => Ok (js "https://bucket/" ++ key) in
  generatePresignedDownloadUrl [] presign (js "doc_1") (js "u_7") (js "t_2") []
  = (Throw "Document not found or access denied", [])
  /\ generatePresignedDownloadUrl [owned] presign (js "doc_1") (js "u_7") (js "t_2") []
     = (Throw "Document not found or access denied", [])
  /\ outcome (generatePresignedDownloadUrl [owned] presign (js "doc_1") (js "u_1")
                (js "t_1") [])
     = Ok {| downloadUrl := js "https://bucket/tenants/t_1/documents/raw/doc_1/a.pdf";
             documentId := js "doc_1"; fileName := js "a.pdf";
             downloadMimeType := js "application/pdf" |}.
Proof.
  intros owned presign. split; [|split; [|reflexivity]].
  - apply (download_existence_not_leaked [] [owned] presign).
    + intros d [].
    + intros d [<-|[]] _. vm_compute. discriminate.
  - apply (download_existence_not_leaked [] [owned] presign).
    + intros d [].
    + intros d [<-|[]] _. vm_compute. discriminate.
Defined.

(** ** The ingestion service *)

Import Ingestion.

(** [processDocument] never throws. *)
Lemma processDocument_returns c s3Key tenantId documentId :
  exists b, outcome (processDocument c s3Key tenantId documentId) = Ok b.
Proof.
  unfold processDocument, tryCatch.
  destruct (if negb _ then _ else _) as [[b|m] t]; simpl; eauto.
Qed.

(** C4: when the guard rejects the key for the tenant, [processDocument]
    returns [false] without throwing and without sending any request, so
    that nothing is fetched from or written to the object store. *)
Theorem guarded_ingestion_skip c s3Key tenantId documentId :
  S3Guard.validateS3Key s3Key tenantId = false ->
  processDocument c s3Key tenantId documentId = (Ok false, []).
Proof. intros H. unfold processDocument. rewrite H. reflexivity. Qed.

(** A document whose key carries another tenant's sanitized identifier is
    skipped. *)
Corollary foreign_document_skipped c s3Key A tenantId documentId :
  extractTenantId s3Key = Some A ->
  sanitizeTenantId (JString A) = Some A ->
  sanitizeTenantId (JString tenantId) <> Some A ->
  processDocument c s3Key tenantId documentId = (Ok false, []).
Proof.
  intros He HA HB. unfold processDocument.
  now rewrite (validateS3Key_foreign _ _ _ He HA HB).
Qed.

Lemma guarded_ingestion_skip_witness :
  let c := {| getObject := fun _ => Ok [Byte.x25; Byte.x50];
              extract := fun _ => Ok (js "text");
              documentUpdate := fun _ _ => Ok tt;
              generateEmbeddings := fun texts => Ok (map (fun _ => [0%Z]) texts);
              storeEmbedding := fun _ => Ok tt |} in
  S3Guard.validateS3Key (js "tenants/t_2/documents/raw/doc_x/f.pdf") (js "t_1") = false
  /\ processDocument c (js "tenants/t_2/documents/raw/doc_x/f.pdf") (js "t_1") (js "doc_x")
     = (Ok false, [])
  /\ processDocument c (js "tenants/t_1/documents/raw/doc_x/f.pdf") (js "t_1") (js "doc_x")
     = (Ok true,
        [S3GetObject (js "tenants/t_1/documents/raw/doc_x/f.pdf");
         ExtractText [Byte.x25; Byte.x50];
         DocumentUpdate (js "doc_x") "EXTRACTED";
         GenerateEmbeddings [js "text"];
         StoreEmbedding (js "doc_x_chunk_0") (Some [0%Z])
           {| metaTenantId := js "t_1"; metaDocumentId := js "doc_x"; chunkIndex := 0;
              metaText := js "text";
              source := js "tenants/t_1/documents/raw/doc_x/f.pdf" |};
         DocumentUpdate (js "doc_x") "READY"]).
Proof.
  intros c. split; [reflexivity|]. split; [|reflexivity].
  apply guarded_ingestion_skip. reflexivity.
Defined.

(** ** The tenant deletion service *)

Import Deletion.

Lemma deleteRequests_app a b :
  deleteRequests (a ++ b) = deleteRequests a ++ deleteRequests b.
Proof. apply flat_map_app. Qed.

Lemma auditEntries_app a b :
  auditEntries (a ++ b) = auditEntries a ++ auditEntries b.
Proof. apply flat_map_app. Qed.

(** A listing sends list requests only. *)
Lemma listLoop_requests prefix pages final objectKeys :
  deleteRequests (requests (listLoop prefix pages final objectKeys)) = []
  /\ auditEntries (requests (listLoop prefix pages final objectKeys)) = [].
Proof.
  revert objectKeys. induction pages as [|p pages IH]; intros objectKeys.
  - cbn [listLoop]. destruct final as [response|m]; split; reflexivity.
  - cbn [listLoop bind call].
    destruct (listLoop prefix pages final (objectKeys ++ pageKeys p)) as [r t] eqn:E.
    specialize (IH (objectKeys ++ pageKeys p)). rewrite E in IH.
    cbn [requests snd app] in *. exact IH.
Qed.

Lemma listTenantObjects_requests c tenantId :
  deleteRequests (requests (listTenantObjects c tenantId)) = []
  /\ auditEntries (requests (listTenantObjects c tenantId)) = [].
Proof.
  unfold listTenantObjects. set (prefix := js "tenants/" ++ tenantId ++ js "/").
  pose proof (listLoop_requests prefix (continued (listObjects c prefix))
                (final (listObjects c prefix)) []) as H.
  destruct (listLoop _ _ _ _) as [[keys|m] t]; cbn [tryCatch throw requests snd] in *.
  - exact H.
  - now rewrite app_nil_r.
Qed.

(** The batch loop sends delete requests only. *)
Lemma deleteLoop_requests c validObjects i totalDeleted :
  auditEntries (requests (deleteLoop c validObjects i totalDeleted)) = [].
Proof.
  funelim (deleteLoop c validObjects i totalDeleted); try reflexivity.
  match goal with
  | IH : auditEntries (requests (deleteLoop _ _ _ _)) = [] |- _ =>
      destruct (deleteLoop _ _ _ _) as [r t]; cbn [requests snd] in *; exact IH
  end.
Qed.

Lemma logDeletionAudit_run c tenantId deletedCount requestedCount :
  logDeletionAudit c tenantId deletedCount requestedCount
  = (Ok tt, [AuditLogCreate (deletionAuditEntry c tenantId deletedCount requestedCount)]).
Proof.
  unfold logDeletionAudit, tryCatch, call.
  now destruct (auditLogCreate c _) as [[]|m].
Qed.

(** The run of [deleteTenantS3Data] once the three preliminary checks have
    passed. *)
Lemma deleteTenantS3Data_after_checks c tenantId force activeUsers :
  sanitizeTenantId (JString tenantId) <> None ->
  tenantFindUnique c tenantId = Ok true ->
  userCount c tenantId = Ok activeUsers ->
  activeUsers = 0 \/ force = true ->
  deleteTenantS3Data c tenantId force
  = tryCatch
      (bind (call (TenantFindUnique tenantId) (Ok true)) (fun _ =>
       bind (call (UserCount tenantId) (Ok activeUsers)) (fun _ =>
       bind (listTenantObjects c tenantId) (fun objectsToDelete =>
         if (length objectsToDelete =? 0)%nat
         then ret {| deletedCount := 0; requestedCount := None;
                     deletionTenantId := tenantId |}
         else
           let validObjects := filterTenantS3Keys objectsToDelete tenantId in
           if negb (length validObjects =? length objectsToDelete)%nat
           then throw "Invalid objects found in tenant prefix"
           else
             bind (deleteLoop c validObjects 0 0) (fun totalDeleted =>
             bind (logDeletionAudit c tenantId totalDeleted (length validObjects))
               (fun _ =>
                  ret {| deletedCount := totalDeleted;
                         requestedCount := Some (length validObjects);
                         deletionTenantId := tenantId |}))))))
      (fun error => throw error).
Proof.
  intros Hs Ht Hu Hf. unfold deleteTenantS3Data.
  destruct (sanitizeTenantId (JString tenantId)); [|congruence].
  rewrite Ht, Hu. cbn [bind call negb].
  assert (E : (0 <? activeUsers)%nat && negb force = false).
  { destruct Hf as [-> | ->]; [reflexivity|apply andb_false_r]. }
  rewrite E.
  change (startsWith (js "tenants/") (js "tenants/" ++ tenantId ++ js "/")) with true.
  change (includesChar (ch "/") (js "tenants/" ++ tenantId ++ js "/")) with true.
  reflexivity.
Qed.

(** A listing in which some key is not the tenant's stops every run
    before its first delete request. *)
Lemma foreign_objects_no_delete c tenantId force listed t :
  listTenantObjects c tenantId = (Ok listed, t) ->
  length (filterTenantS3Keys listed tenantId) <> length listed ->
  deleteRequests (requests (deleteTenantS3Data c tenantId force)) = [].
Proof.
  intros HL Hne. unfold deleteTenantS3Data.
  pose proof (listTenantObjects_requests c tenantId) as [Hd _].
  rewrite HL in *. cbn [requests snd] in Hd.
  apply Nat.eqb_neq in Hne.
  destruct (sanitizeTenantId (JString tenantId)); [|reflexivity].
  destruct (tenantFindUnique c tenantId) as [[|]|m]; try reflexivity.
  destruct (userCount c tenantId) as [n|m]; [|reflexivity].
  cbn [bind call negb].
  destruct ((0 <? n)%nat && negb force); [reflexivity|].
  destruct (negb _ || negb _); [reflexivity|].
  cbn [bind]. rewrite Hne. cbn [negb].
  destruct (length listed =? 0)%nat;
    cbn [ret throw tryCatch requests snd app];
    rewrite ?app_nil_r; cbn [deleteRequests flat_map app]; exact Hd.
Qed.

(** C3: once the preliminary checks have passed, a listing whose keys do
    not all validate for the tenant makes the workflow throw 'Invalid
    objects found in tenant prefix'; the run sends no delete request and
    writes no audit entry. *)
Theorem deletion_aborts_on_foreign_objects c tenantId force activeUsers listed t :
  sanitizeTenantId (JString tenantId) <> None ->
  tenantFindUnique c tenantId = Ok true ->
  userCount c tenantId = Ok activeUsers ->
  activeUsers = 0 \/ force = true ->
  listTenantObjects c tenantId = (Ok listed, t) ->
  length (filterTenantS3Keys listed tenantId) <> length listed ->
  outcome (deleteTenantS3Data c tenantId force)
  = Throw "Invalid objects found in tenant prefix"
  /\ deleteRequests (requests (deleteTenantS3Data c tenantId force)) = []
  /\ auditEntries (requests (deleteTenantS3Data c tenantId force)) = [].
Proof.
  intros Hs Ht Hu Hf HL Hne.
  split; [|split; [now apply (foreign_objects_no_delete c tenantId force listed t)|]].
  - rewrite (deleteTenantS3Data_after_checks c tenantId force activeUsers) by assumption.
    rewrite HL. cbn [bind call].
    assert (E0 : (length listed =? 0)%nat = false).
    { apply Nat.eqb_neq. intros E. apply Hne.
      destruct listed; [reflexivity|discriminate]. }
    apply Nat.eqb_neq in Hne. rewrite E0, Hne. reflexivity.
  - rewrite (deleteTenantS3Data_after_checks c tenantId force activeUsers) by assumption.
    pose proof (listTenantObjects_requests c tenantId) as [_ Ha].
    rewrite HL in *. cbn [requests snd] in Ha. cbn [bind call].
    assert (E0 : (length listed =? 0)%nat = false).
    { apply Nat.eqb_neq. intros E. apply Hne.
      destruct listed; [reflexivity|discriminate]. }
    apply Nat.eqb_neq in Hne. rewrite E0, Hne.
    cbn [negb throw tryCatch requests snd app]. rewrite !app_nil_r.
    cbn [auditEntries flat_map app]. exact Ha.
Qed.

Lemma deletion_aborts_on_foreign_objects_witness :
  let listed := [js "tenants/t_9/documents/raw/d1/a.pdf";
                 js "tenants/t_9/exports/report.csv"] in
  outcome (deleteTenantS3Data (exampleBackend listed) (js "t_9") false)
  = Throw "Invalid objects found in tenant prefix"
  /\ deleteRequests (requests (deleteTenantS3Data (exampleBackend listed) (js "t_9") false))
     = []
  /\ auditEntries (requests (deleteTenantS3Data (exampleBackend listed) (js "t_9") false))
     = [].
Proof.
  intros listed.
  apply (deletion_aborts_on_foreign_objects (exampleBackend listed) (js "t_9") false 0
           listed [S3ListObjects (js "tenants/t_9/")]).
  - discriminate.
  - reflexivity.
  - reflexivity.
  - now left.
  - reflexivity.
  - vm_compute. discriminate.
Defined.




(** A run over three keys of the tenant: one batch and one audit entry. *)
Example deletion_three_objects :
  let keys := [js "tenants/t_9/documents/raw/d1/a.pdf";
               js "tenants/t_9/documents/raw/d2/b.pdf";
               js "tenants/t_9/documents/extracted/d1/a.pdf.txt"] in
  deleteTenantS3Data (exampleBackend keys) (js "t_9") false
  = (Ok {| deletedCount := 3; requestedCount := Some 3; deletionTenantId := js "t_9" |},
     [TenantFindUnique (js "t_9"); UserCount (js "t_9");
      S3ListObjects (js "tenants/t_9/"); S3DeleteObjects keys;
      AuditLogCreate (deletionAuditEntry (exampleBackend keys) (js "t_9") 3 3)]).
Proof. reflexivity. Qed.

(** * Further properties of the guard *)

Lemma filter_filter_id {A : Type} (f : A -> bool) l :
  filter f (filter f l) = filter f l.
Proof. apply filter_id, forallb_filter_self. Qed.

(** X1: [sanitizeTenantId] is idempotent, and an identifier it returns is
    not empty and made of letters, digits, [_] and [-] only. *)
Theorem sanitizeTenantId_idempotent (v : jsval) :
  sanitizeTenantId (ofNullable (sanitizeTenantId v)) = sanitizeTenantId v
  /\ (forall s, sanitizeTenantId v = Some s ->
                s <> [] /\ forallb isIdChar s = true).
Proof.
  destruct v as [| |b|n|t|]; try (split; [reflexivity|discriminate]).
  - destruct b; split; (reflexivity || discriminate).
  - split; [|unfold sanitizeTenantId; simpl; destruct (negb _); discriminate].
    unfold sanitizeTenantId. simpl. now destruct (negb (n =? 0)%Z).
  - split.
    + destruct (sanitizeTenantId (JString t)) as [s|] eqn:E; [|reflexivity].
      destruct (sanitizeTenantId_inv _ _ E) as (_ & Hne & Hid).
      cbn [ofNullable]. now apply sanitizeTenantId_clean.
    + intros s E. destruct (sanitizeTenantId_inv _ _ E) as (_ & Hne & Hid). now split.
Qed.

Lemma sanitizeTenantId_idempotent_witness :
  sanitizeTenantId (JString (js "t 1/../x!")) = Some (js "t1x")
  /\ js "t1x" <> [] /\ forallb isIdChar (js "t1x") = true.
Proof.
  split; [reflexivity|].
  apply (proj2 (sanitizeTenantId_idempotent (JString (js "t 1/../x!")))). reflexivity.
Defined.

(** A replacement drops code units and adds none. *)
Lemma removeAllFrom_sub (P : N -> bool) pat skip s :
  forallb P s = true -> forallb P (removeAllFrom pat skip s) = true.
Proof.
  revert skip. induction s as [|c s IH]; intros skip H; [reflexivity|].
  cbn [forallb] in H. apply andb_true_iff in H. destruct H as [Hc Hs].
  cbn [removeAllFrom]. destruct skip as [|k]; [|auto].
  destruct (startsWith pat (c :: s)); [auto|].
  cbn [forallb]. rewrite Hc. cbn [andb]. auto.
Qed.

Lemma removeAllFrom_length pat skip s :
  length (removeAllFrom pat skip s) <= length s.
Proof.
  revert skip. induction s as [|c s IH]; intros skip; [reflexivity|].
  cbn [removeAllFrom]. destruct skip as [|k].
  - destruct (startsWith pat (c :: s)); cbn [length].
    + specialize (IH (length pat - 1)). lia.
    + specialize (IH 0). lia.
  - specialize (IH k). cbn [length]. lia.
Qed.

Lemma filter_length_le_self {A : Type} (f : A -> bool) l :
  length (filter f l) <= length l.
Proof.
  induction l as [|a l IH]; [reflexivity|]. cbn [filter].
  destruct (f a); cbn [length]; lia.
Qed.

Lemma hasDotDot_tail c s : hasDotDot (c :: s) = false -> hasDotDot s = false.
Proof.
  destruct s as [|b s]; [reflexivity|]. cbn [hasDotDot].
  intros H. apply orb_false_iff in H. now destruct H.
Qed.

(** A pattern that holds two adjacent dots in its first three places
    matches nowhere in a string without two adjacent dots. *)
Lemma removeAll_no_match pat s :
  (forall r, startsWith pat r = true -> hasDotDot r = true) ->
  hasDotDot s = false -> removeAll pat s = s.
Proof.
  intros Hpat. unfold removeAll. induction s as [|c s IH]; intros H; [reflexivity|].
  cbn [removeAllFrom].
  destruct (startsWith pat (c :: s)) eqn:E.
  - apply Hpat in E. congruence.
  - f_equal. apply IH. now apply hasDotDot_tail with c.
Qed.

Lemma startsWith_dots_head x r :
  startsWith (ch "." :: ch "." :: x) r = true -> hasDotDot r = true.
Proof.
  destruct r as [|a [|b r]]; cbn [startsWith]; try discriminate.
  - now rewrite andb_false_r.
  - intros H. apply andb_true_iff in H. destruct H as [Ha H].
    apply andb_true_iff in H. destruct H as [Hb _].
    cbn [hasDotDot]. rewrite (N.eqb_sym a), Ha, (N.eqb_sym b), Hb. reflexivity.
Qed.

Lemma startsWith_dots_second y r :
  startsWith [y; ch "."; ch "."] r = true -> hasDotDot r = true.
Proof.
  destruct r as [|a [|b [|c r]]]; cbn [startsWith]; try discriminate.
  - now rewrite andb_false_r.
  - now rewrite !andb_false_r.
  - intros H. apply andb_true_iff in H. destruct H as [_ H].
    apply andb_true_iff in H. destruct H as [Hb H].
    apply andb_true_iff in H. destruct H as [Hc _].
    cbn [hasDotDot]. rewrite (N.eqb_sym b), Hb, (N.eqb_sym c), Hc.
    cbn [andb orb]. now rewrite orb_true_r.
Qed.

Lemma stripTraversal_fixed k :
  forallb (fun c => negb (isControl c)) k = true -> hasDotDot k = false ->
  stripTraversal k = k.
Proof.
  intros Hc Hd. unfold stripTraversal. rewrite (filter_id _ _ Hc).
  rewrite (removeAll_no_match (js "../")) by (assumption || apply startsWith_dots_head).
  rewrite (removeAll_no_match (js "..\")) by (assumption || apply startsWith_dots_head).
  rewrite (removeAll_no_match (js "/..")) by (assumption || apply startsWith_dots_second).
  now rewrite (removeAll_no_match (js "\..")) by (assumption || apply startsWith_dots_second).
Qed.

(** X2: the key that [sanitizeS3Key] returns holds no control code unit
    and is not longer than the key given; a non-empty key without control
    code units and without two adjacent dots is returned unchanged. *)
Theorem sanitizeS3Key_output (k s : jsstring) :
  sanitizeS3Key (JString k) = Some s ->
  forallb (fun c => negb (isControl c)) s = true
  /\ length s <= length k
  /\ (forallb (fun c => negb (isControl c)) k = true -> hasDotDot k = false -> s = k).
Proof.
  destruct k as [|c k]; [discriminate|].
  intros H. injection H as <-. repeat split.
  - unfold stripTraversal, removeAll.
    do 4 apply removeAllFrom_sub. apply forallb_filter_self.
  - unfold stripTraversal, removeAll.
    pose proof (filter_length_le_self (fun c => negb (isControl c)) (c :: k)) as H0.
    set (s0 := filter _ (c :: k)) in *.
    pose proof (removeAllFrom_length (js "../") 0 s0) as H1.
    set (s1 := removeAllFrom (js "../") 0 s0) in *.
    pose proof (removeAllFrom_length (js "..\") 0 s1) as H2.
    set (s2 := removeAllFrom (js "..\") 0 s1) in *.
    pose proof (removeAllFrom_length (js "/..") 0 s2) as H3.
    set (s3 := removeAllFrom (js "/..") 0 s2) in *.
    pose proof (removeAllFrom_length (js "\..") 0 s3) as H4.
    lia.
  - intros Hc Hd. now apply stripTraversal_fixed.
Qed.

Lemma sanitizeS3Key_output_witness :
  forallb (fun c => negb (isControl c)) (js "ab/c") = true
  /\ length (js "ab/c") <= length (js "a" ++ [7%N] ++ js "b/../c")
  /\ (forallb (fun c => negb (isControl c)) (js "a" ++ [7%N] ++ js "b/../c") = true ->
      hasDotDot (js "a" ++ [7%N] ++ js "b/../c") = false ->
      js "ab/c" = js "a" ++ [7%N] ++ js "b/../c").
Proof.
  apply (sanitizeS3Key_output (js "a" ++ [7%N] ++ js "b/../c")). reflexivity.
Defined.

Lemma filter_length_all {A : Type} (f : A -> bool) l :
  length (filter f l) = length l <-> forallb f l = true.
Proof.
  induction l as [|a l IH]; [now split|]. cbn [filter forallb].
  pose proof (filter_length_le_self f l) as Hle.
  destruct (f a); cbn [length andb].
  - rewrite <- IH. split; intros H; lia.
  - split; [intros H; lia|discriminate].
Qed.

(** X3: the keys that [filterTenantS3Keys] keeps are as many as the keys
    given exactly when every key given validates for the tenant; the test
    on the two lengths in the deletion workflow is a test that no listed
    key is invalid. *)
Theorem filterTenantS3Keys_length_all (keys : list jsstring) (tenantId : jsstring) :
  length (filterTenantS3Keys keys tenantId) = length keys
  <-> (forall key, In key keys -> S3Guard.validateS3Key key tenantId = true).
Proof.
  unfold filterTenantS3Keys. rewrite filter_length_all, forallb_forall. reflexivity.
Qed.

Lemma filterTenantS3Keys_length_all_witness :
  let keys := [js "tenants/t_9/documents/raw/d1/a.pdf";
               js "tenants/t_9/documents/raw/d2/b.pdf"] in
  length (filterTenantS3Keys keys (js "t_9")) = length keys.
Proof.
  intros keys. apply filterTenantS3Keys_length_all.
  intros key [<-|[<-|[]]]; reflexivity.
Defined.

(** Every key kept is a key given that validates. *)
Lemma filterTenantS3Keys_valid keys tenantId key :
  In key (filterTenantS3Keys keys tenantId) ->
  In key keys /\ S3Guard.validateS3Key key tenantId = true.
Proof. unfold filterTenantS3Keys. now rewrite filter_In. Qed.

Lemma spanSegment_segment seg rest :
  noSlash seg = true ->
  spanSegment (seg ++ ch "/" :: rest) = (seg, ch "/" :: rest).
Proof.
  unfold noSlash. induction seg as [|c seg IH]; intros H; [reflexivity|].
  cbn [forallb] in H. apply andb_true_iff in H. destruct H as [Hc Hs].
  apply negb_true_iff in Hc. cbn [app spanSegment]. now rewrite Hc, (IH Hs).
Qed.

Lemma extractTenantId_canonical T rest :
  T <> [] -> noSlash T = true ->
  extractTenantId (js "tenants/" ++ T ++ ch "/" :: rest) = Some T.
Proof.
  intros Hne Hn. unfold extractTenantId.
  change (nonEmpty (js "tenants/" ++ T ++ ch "/" :: rest)) with true.
  change (stripPrefix (js "tenants/") (js "tenants/" ++ T ++ ch "/" :: rest))
    with (Some (T ++ ch "/" :: rest)).
  cbn [negb]. rewrite (spanSegment_segment _ _ Hn).
  destruct T; [congruence|]. now rewrite N.eqb_refl.
Qed.

(** X4: the tenant identifier extracted from a key that
    [generateSecureS3Key] built is the sanitized form of the identifier
    the key was built from. *)
Theorem extract_of_generated_key (tenantId documentId filename stage key : jsstring) :
  generateSecureS3Key tenantId documentId filename stage = Some key ->
  extractTenantId key = sanitizeTenantId (JString tenantId).
Proof.
  unfold generateSecureS3Key.
  destruct (sanitizeTenantId (JString tenantId)) as [T|] eqn:Et; [|discriminate].
  destruct (sanitizeTenantId (JString documentId)) as [D|]; [|discriminate].
  destruct (sanitizeS3Key (JString filename)) as [F|]; [|discriminate].
  destruct (negb (nonEmpty F)); [discriminate|].
  intros H. injection H as <-.
  destruct (sanitizeTenantId_inv _ _ Et) as (_ & Hne & Hid).
  change (js "tenants/" ++ T ++ js "/documents/" ++ stage ++ js "/" ++ D ++ js "/" ++ F)
    with (js "tenants/" ++ T ++ ch "/" :: js "documents/" ++ stage ++ js "/" ++ D
          ++ js "/" ++ F).
  apply extractTenantId_canonical; auto using idChars_noSlash.
Qed.

Lemma extract_of_generated_key_witness :
  extractTenantId (js "tenants/acme1/documents/raw/d_9/notes.txt") = Some (js "acme1").
Proof.
  apply (extract_of_generated_key (js "acme 1!") (js "d_9") (js "notes.txt") (js "raw")).
  reflexivity.
Defined.

(** What the parts of a split say of the string. *)
Lemma split_cons_inv s seg more :
  split (ch "/") s = seg :: more ->
  (more = [] /\ s = seg)
  \/ (exists s', s = seg ++ ch "/" :: s' /\ split (ch "/") s' = more).
Proof.
  revert seg more. induction s as [|c s IH]; cbn [split]; intros seg more H.
  - injection H as <- <-. now left.
  - destruct (c =? ch "/")%N eqn:Ec.
    + apply N.eqb_eq in Ec. subst c. injection H as <- <-. right. now exists s.
    + destruct (split (ch "/") s) as [|p ps] eqn:E; [now destruct (split_nonnil _ _ E)|].
      injection H as <- <-.
      destruct (IH _ _ eq_refl) as [[-> ->]|(s' & -> & Hs')].
      * now left.
      * right. now exists s'.
Qed.

(** X5: a key in the layout [tenants/{T}/documents/...], [T] the
    sanitized tenant identifier, always validates; and a key that
    sanitizing leaves unchanged validates only if it has this layout. *)
Theorem validateS3Key_layout (k t : jsstring) :
  (forall T, sanitizeTenantId (JString t) = Some T ->
             startsWith (js "tenants/" ++ T ++ js "/documents/") k = true ->
             S3Guard.validateS3Key k t = true)
  /\ (stripTraversal k = k ->
      S3Guard.validateS3Key k t = true ->
      exists T, sanitizeTenantId (JString t) = Some T
                /\ startsWith (js "tenants/" ++ T ++ js "/documents/") k = true).
Proof.
  split.
  - intros T Ht Hs. apply startsWith_inv in Hs. destruct Hs as [r ->].
    rewrite <- !app_assoc. now apply validateS3Key_canonical.
  - intros Hfix H. unfold S3Guard.validateS3Key in H.
    apply andb_true_iff in H. destruct H as [Ho Hs].
    unfold validateTenantOwnership in Ho.
    destruct (negb (nonEmpty k) || negb (nonEmpty t)) eqn:Ene; [discriminate|].
    destruct k as [|c k]; [discriminate|].
    cbn [sanitizeS3Key truthy isString negb orb] in Ho. rewrite Hfix in Ho.
    destruct (sanitizeTenantId (JString t)) as [T|] eqn:Et; [|discriminate].
    destruct (negb (nonEmpty (c :: k)) || negb (nonEmpty T)); [discriminate|].
    exists T. split; [reflexivity|].
    apply startsWith_inv in Ho. destruct Ho as [rest Hk].
    destruct (sanitizeTenantId_inv _ _ Et) as (_ & _ & Hid).
    rewrite Hk in Hs |- *. unfold validateS3KeyStructure in Hs.
    destruct (negb (nonEmpty _)); [discriminate|].
    rewrite <- !app_assoc in Hs.
    change (js "tenants/" ++ T ++ js "/" ++ rest)
      with (js "tenants" ++ ch "/" :: T ++ ch "/" :: rest) in Hs.
    rewrite split_segment in Hs by reflexivity.
    rewrite split_segment in Hs by auto using idChars_noSlash.
    destruct (split (ch "/") rest) as [|p [|q more]] eqn:E;
      [now destruct (split_nonnil _ _ E)|discriminate|].
    cbn [length nth] in Hs.
    destruct (_ <? 4)%nat; [discriminate|].
    destruct (negb (jsstring_eqb _ (js "tenants"))); [discriminate|].
    destruct (jsstring_eqb p (js "documents")) eqn:Ed; [|discriminate].
    apply jsstring_eqb_eq in Ed. subst p.
    destruct (split_cons_inv _ _ _ E) as [[HF _]|(s' & -> & _)]; [discriminate|].
    assert (Eq : (js "tenants/" ++ T ++ js "/") ++ js "documents" ++ ch "/" :: s'
                 = (js "tenants/" ++ T ++ js "/documents/") ++ s')
      by (rewrite <- !app_assoc; reflexivity).
    rewrite Eq. apply startsWith_app.
Qed.

Lemma validateS3Key_layout_witness :
  exists T, sanitizeTenantId (JString (js "t_1!")) = Some T
            /\ startsWith (js "tenants/" ++ T ++ js "/documents/")
                 (js "tenants/t_1/documents/raw/d/f.pdf") = true.
Proof.
  apply (proj2 (validateS3Key_layout (js "tenants/t_1/documents/raw/d/f.pdf") (js "t_1!")));
    reflexivity.
Defined.

(** X6: the guard reads the tenant identifier through its sanitized form
    only: two identifiers with one sanitized form validate the same
    keys. *)
Theorem validateS3Key_by_sanitized_id (k t t' : jsstring) :
  sanitizeTenantId (JString t) = sanitizeTenantId (JString t') ->
  S3Guard.validateS3Key k t = S3Guard.validateS3Key k t'.
Proof.
  intros H. unfold S3Guard.validateS3Key. f_equal. unfold validateTenantOwnership.
  rewrite <- H.
  destruct (sanitizeTenantId (JString t)) as [T|] eqn:Et.
  - destruct (sanitizeTenantId_nonempty _ _ Et) as [-> _].
    symmetry in H. destruct (sanitizeTenantId_nonempty _ _ H) as [-> _]. reflexivity.
  - destruct (negb (nonEmpty k) || negb (nonEmpty t));
      destruct (negb (nonEmpty k) || negb (nonEmpty t'));
      destruct (sanitizeS3Key (JString k)); reflexivity.
Qed.

Lemma validateS3Key_by_sanitized_id_witness :
  S3Guard.validateS3Key (js "tenants/t_1/documents/raw/d/f.pdf") (js "t_1")
  = S3Guard.validateS3Key (js "tenants/t_1/documents/raw/d/f.pdf") (js "t_1!").
Proof. apply validateS3Key_by_sanitized_id. reflexivity. Defined.

(** * Further properties of the upload service *)

Import UploadService.

Lemma getTenantIdFromObjectKey_canonical T rest :
  T <> [] -> noSlash T = true ->
  getTenantIdFromObjectKey (js "tenants/" ++ T ++ ch "/" :: rest) = Some T.
Proof.
  intros Hne Hn. unfold getTenantIdFromObjectKey.
  change (stripPrefix (js "tenants/") (js "tenants/" ++ T ++ ch "/" :: rest))
    with (Some (T ++ ch "/" :: rest)).
  cbv beta iota. rewrite (spanSegment_segment _ _ Hn).
  destruct T; [congruence|]. now rewrite N.eqb_refl.
Qed.

(** X7: from a key that the upload service generated,
    [getTenantIdFromObjectKey] reads back the tenant identifier the key
    was generated for, and [validateTenantObjectKey] accepts the key for
    that identifier. *)
Theorem upload_key_tenant_roundtrip
    (extname : jsstring -> jsstring) (basename : jsstring -> jsstring -> jsstring)
    (tenantId originalFilename : jsstring) (documentId : option jsstring)
    (timestamp : Z) (random : list Byte.byte) (key : jsstring) :
  generateSecureObjectKey extname basename tenantId originalFilename documentId
    timestamp random = Ok key ->
  getTenantIdFromObjectKey key = Some tenantId
  /\ validateTenantObjectKey key tenantId = true.
Proof.
  intros H.
  destruct (generateSecureObjectKey_inv _ _ _ _ _ _ _ _ H) as (Ht & s & _ & ->).
  destruct (sanitizeTenantId_inv _ _ Ht) as (_ & Hne & Hid).
  split.
  - change (js "tenants/" ++ tenantId ++ js "/documents/raw/" ++ orTemp documentId
            ++ js "/" ++ generateUniqueFilename extname basename s timestamp random)
      with (js "tenants/" ++ tenantId ++ ch "/" :: js "documents/raw/"
            ++ orTemp documentId ++ js "/"
            ++ generateUniqueFilename extname basename s timestamp random).
    apply getTenantIdFromObjectKey_canonical; auto using idChars_noSlash.
  - unfold validateTenantObjectKey. rewrite startsWith_app_same.
    rewrite startsWith_app_same. reflexivity.
Qed.

Lemma upload_key_tenant_roundtrip_witness :
  getTenantIdFromObjectKey
    (js "tenants/t_1/documents/raw/temp/secret-1700000000000-00017f80abcdefff.pdf")
  = Some (js "t_1")
  /\ validateTenantObjectKey
       (js "tenants/t_1/documents/raw/temp/secret-1700000000000-00017f80abcdefff.pdf")
       (js "t_1") = true.
Proof.
  apply (upload_key_tenant_roundtrip extnameOfName basenameOfName
           (js "t_1") (js "../../secret.pdf") None 1700000000000
           [Byte.x00; Byte.x01; Byte.x7f; Byte.x80; Byte.xab; Byte.xcd; Byte.xef; Byte.xff]).
  reflexivity.
Defined.

Lemma jsstring_eqb_sym a b : jsstring_eqb a b = jsstring_eqb b a.
Proof.
  destruct (jsstring_eqb a b) eqn:E.
  - apply jsstring_eqb_eq in E. subst. symmetry. now apply jsstring_eqb_eq.
  - destruct (jsstring_eqb b a) eqn:E'; [|reflexivity].
    apply jsstring_eqb_eq in E'. subst.
    assert (jsstring_eqb a a = true) by now apply jsstring_eqb_eq. congruence.
Qed.

Lemma includes_true l x : Download.includes l x = true <-> In x l.
Proof.
  unfold Download.includes. rewrite existsb_exists. split.
  - intros (y & Hy & E). apply jsstring_eqb_eq in E. now subst.
  - intros H. exists x. split; [assumption|]. now apply jsstring_eqb_eq.
Qed.

(** An entry of the table with a single extension adds nothing to the
    test on the extension itself. *)
Lemma single_extension_entry allowed e ext :
  Download.includes allowed ext = false ->
  Download.includes [e] ext
  && existsb (fun a => Download.includes [e] a) allowed = false.
Proof.
  intros Hno. destruct (Download.includes [e] ext) eqn:E1; [|reflexivity].
  destruct (existsb _ allowed) eqn:E2; [|reflexivity]. exfalso.
  apply includes_true in E1. destruct E1 as [<-|[]].
  apply existsb_exists in E2. destruct E2 as (a & Ha & E2).
  apply includes_true in E2. destruct E2 as [<-|[]].
  apply includes_true in Ha. congruence.
Qed.

Lemma two_extensions_allowed allowed e1 e2 :
  existsb (fun a => Download.includes [e1; e2] a) allowed
  = Download.includes allowed e1 || Download.includes allowed e2.
Proof.
  induction allowed as [|a allowed IH]; [reflexivity|].
  change (existsb (fun a => Download.includes [e1; e2] a) (a :: allowed))
    with (Download.includes [e1; e2] a
          || existsb (fun a => Download.includes [e1; e2] a) allowed).
  rewrite IH. unfold Download.includes. cbn [existsb].
  rewrite (jsstring_eqb_sym a e1), (jsstring_eqb_sym a e2).
  destruct (jsstring_eqb e1 a), (jsstring_eqb e2 a),
    (existsb (jsstring_eqb e1) allowed), (existsb (jsstring_eqb e2) allowed);
    reflexivity.
Qed.

Section UploadServiceFacts.

Variable toLowerCase : jsstring -> jsstring.
Variable extname : jsstring -> jsstring.
Variable basename : jsstring -> jsstring -> jsstring.
Variable ALLOWED_FILE_TYPES : jsstring.
Variable MAX_FILE_SIZE : Z.

Let allowed := allowedTypes ALLOWED_FILE_TYPES.
Let extensionOf := fileExtension toLowerCase.
Let checkType := validateFileType toLowerCase ALLOWED_FILE_TYPES.
Let presignUpload :=
  generatePresignedUploadUrl toLowerCase extname basename ALLOWED_FILE_TYPES
    MAX_FILE_SIZE.

(** X8: a file is accepted when its lower-cased extension is an allowed
    type, whatever MIME type is declared; otherwise only as a [jpg] or
    [jpeg] file declared [image/jpeg] while the other of the two
    extensions is allowed. *)
Theorem validateFileType_cases (mimeType filename : jsstring) :
  checkType mimeType filename
  = Download.includes allowed (extensionOf filename)
    || (jsstring_eqb (js "image/jpeg") mimeType
        && Download.includes [js "jpg"; js "jpeg"] (extensionOf filename)
        && (Download.includes allowed (js "jpg")
            || Download.includes allowed (js "jpeg"))).
Proof.
  unfold checkType, validateFileType. fold allowed. fold (extensionOf filename).
  destruct (Download.includes allowed (extensionOf filename)) eqn:E; [reflexivity|].
  unfold mimeToExtension. cbn [existsb orb].
  rewrite <- !andb_assoc.
  rewrite !(single_extension_entry allowed _ _ E), !andb_false_r.
  cbn [orb]. rewrite orb_false_r. now rewrite two_extensions_allowed.
Qed.

(** X9: a run of [generatePresignedUploadUrl] asks for at most one write
    credential, and only after the tenant, type and size checks have
    passed; the credential is for a key that the guard validates for the
    tenant, with the declared MIME type; and a result carries that key and
    the file name as given. *)
Theorem presigned_upload_scope
    (presign : jsstring -> jsstring -> result jsstring)
    (tenantId originalFilename mimeType : jsstring) (fileSize : Z)
    (documentId : option jsstring) (timestamp : Z) (random : list Byte.byte) :
  let run := presignUpload presign tenantId originalFilename mimeType fileSize
               documentId timestamp random in
  (forall key contentType,
      In (S3PresignPut key contentType) (snd run) ->
      snd run = [S3PresignPut key mimeType]
      /\ S3Guard.validateS3Key key tenantId = true
      /\ checkType mimeType originalFilename = true
      /\ (fileSize <= MAX_FILE_SIZE)%Z)
  /\ (forall u, fst run = Ok u ->
                snd run = [S3PresignPut (objectKey u) mimeType]
                /\ filename u = originalFilename).
Proof.
  unfold presignUpload, generatePresignedUploadUrl. fold checkType.
  destruct (negb (nonEmpty tenantId)); [split; [intros ? ? []|discriminate]|].
  destruct (checkType mimeType originalFilename); cbn [negb];
    [|split; [intros ? ? []|discriminate]].
  unfold validateFileSize.
  destruct (fileSize <=? MAX_FILE_SIZE)%Z eqn:Es; cbn [negb];
    [|split; [intros ? ? []|discriminate]].
  apply Z.leb_le in Es.
  destruct (generateSecureObjectKey _ _ _ _ _ _ _) as [key|m] eqn:Ek;
    [|split; [intros ? ? []|discriminate]].
  pose proof (generateSecureObjectKey_validates _ _ _ _ _ _ _ _ Ek) as Hv.
  destruct (presign key mimeType) as [url|m]; cbn [fst snd]; split.
  - intros k ct [E|[]]. injection E as <- <-. auto.
  - intros u E. injection E as <-. now split.
  - intros k ct [E|[]]. injection E as <- <-. auto.
  - discriminate.
Qed.

End UploadServiceFacts.

Lemma presigned_upload_scope_witness :
  let random := [Byte.x00; Byte.x01; Byte.x7f; Byte.x80;
                 Byte.xab; Byte.xcd; Byte.xef; Byte.xff] in
  let key := js "tenants/t_1/documents/raw/temp/a-1700000000000-00017f80abcdefff.pdf" in
  S3Guard.validateS3Key key (js "t_1") = true.
Proof.
  intros random key.
  pose proof (presigned_upload_scope (fun s => s) extnameOfName basenameOfName
                (js "pdf, txt") 1000 (fun k _ => Ok (js "https://bucket/" ++ k))
                (js "t_1") (js "a.pdf") (js "application/pdf") 10 None
                1700000000000 random) as [H _].
  apply (H key (js "application/pdf")). left. reflexivity.
Defined.

Example validateFileType_examples :
  let check := validateFileType (fun s => s) (js "pdf, txt ,jpg") in
  check (js "text/plain") (js "report.pdf") = true
  /\ check (js "image/jpeg") (js "photo.jpeg") = true
  /\ check (js "image/png") (js "photo.jpeg") = false
  /\ check (js "application/pdf") (js "pdf") = true
  /\ check (js "application/pdf") (js "report.pdf.exe") = false.
Proof. repeat split. Qed.

(** Where [lastIndexOf] points. *)
Lemma lastIndexOfFrom_spec c i s found :
  (forallb (fun x => negb (x =? c)%N) s = true
   /\ lastIndexOfFrom c i s found = found)
  \/ (exists pre post,
         s = pre ++ c :: post
         /\ forallb (fun x => negb (x =? c)%N) post = true
         /\ lastIndexOfFrom c i s found = Z.of_nat (i + length pre)).
Proof.
  revert i found. induction s as [|x s IH]; intros i found.
  - left. now split.
  - cbn [lastIndexOfFrom forallb].
    destruct (IH (S i) (if (x =? c)%N then Z.of_nat i else found))
      as [[Hno Hr]|(pre & post & -> & Hpost & Hr)].
    + destruct (x =? c)%N eqn:Ex.
      * right. apply N.eqb_eq in Ex. subst x. exists [], s.
        repeat split; [assumption|]. rewrite Hr. cbn [length]. f_equal. lia.
      * left. now split.
    + right. exists (x :: pre), post. repeat split; [assumption|].
      rewrite Hr. cbn [length]. f_equal. lia.
Qed.

Lemma dots_app a b : dots (a ++ b) = dots a + dots b.
Proof. apply count_occ_app. Qed.

Lemma dots_none s :
  forallb (fun x => negb (x =? ch ".")%N) s = true -> dots s = 0.
Proof.
  unfold dots. induction s as [|x s IH]; [reflexivity|]. cbn [forallb].
  intros H. apply andb_true_iff in H. destruct H as [Hx Hs].
  apply negb_true_iff, N.eqb_neq in Hx.
  rewrite count_occ_cons_neq by assumption. auto.
Qed.

Lemma filter_keeps_forallb {A : Type} (P f : A -> bool) l :
  forallb P l = true -> forallb P (filter f l) = true.
Proof.
  induction l as [|a l IH]; [reflexivity|]. cbn [forallb filter].
  intros H. apply andb_true_iff in H. destruct H as [Ha Hl].
  destruct (f a); cbn [forallb]; [rewrite Ha|]; auto.
Qed.

(** The base name after its replacement. *)
Lemma baseName_replaced s :
  let replaced :=
    map (fun c => if isAlnum c || (c =? ch " ")%N || (c =? ch "_")%N
                     || (c =? ch "-")%N
                  then c else ch "_") s in
  forallb isNameChar replaced = true
  /\ forallb (fun x => negb (x =? ch ".")%N) replaced = true.
Proof.
  induction s as [|c s [IH1 IH2]]; [now split|].
  cbn [map forallb]. rewrite IH1, IH2, !andb_true_r.
  destruct (isAlnum c || (c =? ch " ")%N || (c =? ch "_")%N || (c =? ch "-")%N) eqn:E.
  - split.
    + unfold isNameChar. now rewrite E.
    + apply negb_true_iff, N.eqb_neq. intros ->. vm_compute in E. discriminate.
  - split; reflexivity.
Qed.

(** X10: a sanitized file name is made of letters, digits, spaces, [_],
    [-] and [.] only, so that it holds no path separator, and it holds at
    most one dot, so that it holds no traversal sequence. *)
Theorem sanitizeFilename_segment (filename s : jsstring) :
  sanitizeFilename filename = Some s ->
  forallb isNameChar s = true /\ dots s <= 1.
Proof.
  unfold sanitizeFilename. destruct (negb (nonEmpty filename)); [discriminate|].
  set (f0 := filter _ (removeAll _ (removeAll _ (removeAll _ (removeAll _ filename))))).
  unfold lastIndexOf.
  destruct (lastIndexOfFrom_spec (ch ".") 0 f0 (-1))
    as [[Hno ->]|(pre & post & Ef & Hpost & ->)].
  - cbn [Z.ltb Z.compare]. intros H. injection H as <-. rewrite app_nil_r.
    destruct (baseName_replaced f0) as [H1 H2]. split; [exact H1|].
    rewrite (dots_none _ H2). lia.
  - cbn [Nat.add]. destruct (0 <? Z.of_nat (length pre))%Z eqn:Epos.
    + rewrite Nat2Z.id, Ef.
      rewrite firstn_app, Nat.sub_diag, firstn_all, firstn_O, app_nil_r.
      rewrite skipn_app, Nat.sub_diag, skipn_all, skipn_O. cbn [app filter].
      change (isAlnum (ch ".") || (ch "." =? ch ".")%N) with true. cbv iota.
      intros H. injection H as <-.
      destruct (baseName_replaced pre) as [H1 H2]. split.
      * rewrite forallb_app, H1. cbn [forallb andb].
        change (isNameChar (ch ".")) with true.
        apply forallb_forall. intros x Hx. apply filter_In in Hx.
        destruct Hx as [_ Hx]. unfold isNameChar.
        apply orb_true_iff in Hx. destruct Hx as [->| ->]; [reflexivity|].
        now rewrite orb_true_r.
      * rewrite dots_app, (dots_none _ H2). unfold dots at 1.
        rewrite count_occ_cons_eq by reflexivity.
        fold (dots (filter (fun c => isAlnum c || (c =? ch ".")%N) post)).
        rewrite dots_none; [lia|]. now apply filter_keeps_forallb.
    + intros H. injection H as <-. rewrite app_nil_r.
      destruct (baseName_replaced f0) as [H1 H2]. split; [exact H1|].
      rewrite (dots_none _ H2). lia.
Qed.

Lemma sanitizeFilename_segment_witness :
  forallb isNameChar (js "_etc_passwd.d") = true /\ dots (js "_etc_passwd.d") <= 1.
Proof.
  apply (sanitizeFilename_segment (js "../..//etc/passwd.d/")). reflexivity.
Defined.

(** * Further properties of the download service *)

Lemma validateDocumentAccess_inv db documentId userId userTenantId userRoles doc :
  validateDocumentAccess db documentId userId userTenantId userRoles = Some doc ->
  In doc db /\ id doc = documentId /\ tenantId doc = userTenantId
  /\ deletedAt doc = None /\ checkUserAccess doc userRoles = true.
Proof.
  unfold validateDocumentAccess, findFirst.
  destruct (find _ db) as [d|] eqn:E; [|discriminate].
  destruct (checkUserAccess d userRoles) eqn:Ea; [|discriminate].
  intros H. injection H as <-.
  apply find_some in E. destruct E as [Hin Hd].
  apply andb_true_iff in Hd. destruct Hd as [Hd Hdel].
  apply andb_true_iff in Hd. destruct Hd as [Hid Hten].
  apply jsstring_eqb_eq in Hid, Hten.
  destruct (deletedAt d); [discriminate|]. auto.
Qed.

Lemma download_validateS3Key_inv key t :
  Download.validateS3Key key t = true ->
  exists k, key = Some k /\ k <> []
            /\ startsWith (js "tenants/" ++ t ++ js "/") k = true
            /\ nth 2 (split (ch "/") k) [] = js "documents"
            /\ 4 <= length (split (ch "/") k).
Proof.
  unfold Download.validateS3Key. destruct key as [[|c k]|]; try discriminate.
  destruct (negb (nonEmpty t)); [discriminate|].
  destruct (startsWith _ (c :: k)) eqn:Ep; [|discriminate]. cbn [negb].
  destruct (length _ <? 4)%nat eqn:El; [discriminate|]. cbn [orb].
  destruct (jsstring_eqb _ (js "documents")) eqn:Ed; [|discriminate].
  intros _. exists (c :: k). apply jsstring_eqb_eq in Ed. apply Nat.ltb_ge in El.
  repeat split; (assumption || discriminate).
Qed.

(** X11: every read credential that [generatePresignedDownloadUrl] asks
    for is for the storage key of a document of the database which has the
    requested identifier, belongs to the requesting tenant, is not deleted
    and passes the role check; the key lies under the prefix of the
    requesting tenant, and no other request is sent. *)
Theorem download_credential_scope
    (db : list document) (presign : jsstring -> result jsstring)
    (documentId userId userTenantId : jsstring) (userRoles : list jsstring)
    (key : jsstring) :
  In (S3PresignGet key)
     (requests (generatePresignedDownloadUrl db presign documentId userId
                  userTenantId userRoles)) ->
  requests (generatePresignedDownloadUrl db presign documentId userId
              userTenantId userRoles) = [S3PresignGet key]
  /\ startsWith (js "tenants/" ++ userTenantId ++ js "/") key = true
  /\ exists doc, In doc db /\ id doc = documentId /\ tenantId doc = userTenantId
                 /\ deletedAt doc = None /\ storageKey doc = Some key
                 /\ checkUserAccess doc userRoles = true.
Proof.
  unfold generatePresignedDownloadUrl.
  destruct (validateDocumentAccess _ _ _ _ _) as [doc|] eqn:Ea; [|intros []].
  destruct (validateDocumentAccess_inv _ _ _ _ _ _ Ea) as (Hin & Hid & Ht & Hd & Hr).
  destruct (Download.validateS3Key (storageKey doc) userTenantId) eqn:Ev;
    [|intros []].
  destruct (download_validateS3Key_inv _ _ Ev) as (k & Ek & Hne & Hp & _).
  rewrite Ek. destruct k as [|c k]; [congruence|]. cbn [negb bind call].
  destruct (presign (c :: k)); cbn [ret requests snd app]; intros [E|[]];
    injection E as <-; (split; [reflexivity|]); (split; [exact Hp|]);
    exists doc; auto 10.
Qed.

Lemma download_credential_scope_witness :
  let owned := {| id := js "doc_1"; tenantId := js "t_1"; deletedAt := None;
                  storageKey := Some (js "tenants/t_1/documents/raw/doc_1/a.pdf");
                  allowedRoles := None; docFolder := None;
                  originalName := Some (js "a.pdf"); name := js "a.pdf";
                  mimeType := js "application/pdf" |} in
  startsWith (js "tenants/" ++ js "t_1" ++ js "/")
    (js "tenants/t_1/documents/raw/doc_1/a.pdf") = true.
Proof.
  intros owned.
  apply (download_credential_scope [owned] (fun key => Ok (js "https://bucket/" ++ key))
           (js "doc_1") (js "u_1") (js "t_1") []).
  left. reflexivity.
Defined.

(** X12: the third check of [generatePresignedDownloadUrl] never fires:
    a document without a storage key is already refused by the key check,
    so 'Document does not have an S3 storage key' is never thrown by the
    service itself. *)
Theorem download_missing_key_unreachable
    (db : list document) (presign : jsstring -> result jsstring)
    (documentId userId userTenantId : jsstring) (userRoles : list jsstring) :
  (forall key, presign key <> Throw "Document does not have an S3 storage key") ->
  outcome (generatePresignedDownloadUrl db presign documentId userId
             userTenantId userRoles)
  <> Throw "Document does not have an S3 storage key".
Proof.
  intros Hp. unfold generatePresignedDownloadUrl.
  destruct (validateDocumentAccess _ _ _ _ _) as [doc|]; [|discriminate].
  destruct (Download.validateS3Key (storageKey doc) userTenantId) eqn:Ev;
    [|discriminate].
  destruct (download_validateS3Key_inv _ _ Ev) as (k & Ek & Hne & _).
  rewrite Ek. destruct k as [|c k]; [congruence|]. cbn [negb bind call].
  destruct (presign (c :: k)) as [url|m] eqn:E;
    cbn [bind call ret outcome fst]; [discriminate|].
  intros H. apply (Hp (c :: k)). rewrite E. injection H as ->. reflexivity.
Qed.

Lemma download_missing_key_unreachable_witness :
  let keyless := {| id := js "doc_1"; tenantId := js "t_1"; deletedAt := None;
                    storageKey := None;
                    allowedRoles := None; docFolder := None;
                    originalName := None; name := js "a.pdf";
                    mimeType := js "application/pdf" |} in
  outcome (generatePresignedDownloadUrl [keyless] (fun key => Ok key)
             (js "doc_1") (js "u_1") (js "t_1") [])
  <> Throw "Document does not have an S3 storage key".
Proof.
  intros keyless. apply download_missing_key_unreachable. discriminate.
Defined.

Example download_keyless_document :
  let keyless := {| id := js "doc_1"; tenantId := js "t_1"; deletedAt := None;
                    storageKey := None;
                    allowedRoles := None; docFolder := None;
                    originalName := None; name := js "a.pdf";
                    mimeType := js "application/pdf" |} in
  generatePresignedDownloadUrl [keyless] (fun key => Ok key)
    (js "doc_1") (js "u_1") (js "t_1") []
  = (Throw "Invalid S3 key for tenant", []).
Proof. reflexivity. Qed.

(** X13: for a tenant identifier made of letters, digits, [_] and [-],
    a storage key that the check of the download service accepts is a key
    that the guard validates. *)
Theorem download_check_implies_guard (key t : jsstring) :
  forallb isIdChar t = true ->
  Download.validateS3Key (Some key) t = true ->
  S3Guard.validateS3Key key t = true.
Proof.
  intros Hid Hv.
  destruct (download_validateS3Key_inv _ _ Hv) as (k & Ek & Hne & Hp & Hd & Hl).
  injection Ek as <-.
  assert (Ht : t <> []).
  { unfold Download.validateS3Key in Hv. destruct key; [discriminate|].
    destruct t; [discriminate|discriminate]. }
  apply startsWith_inv in Hp. destruct Hp as [rest ->].
  rewrite <- !app_assoc in Hd, Hl.
  change (js "tenants/" ++ t ++ js "/" ++ rest)
    with (js "tenants" ++ ch "/" :: t ++ ch "/" :: rest) in Hd, Hl.
  rewrite split_segment in Hd, Hl by reflexivity.
  rewrite split_segment in Hd, Hl by auto using idChars_noSlash.
  destruct (split (ch "/") rest) as [|p [|q more]] eqn:E;
    [now destruct (split_nonnil _ _ E)|cbn [length] in Hl; lia|].
  cbn [nth] in Hd. subst p.
  destruct (split_cons_inv _ _ _ E) as [[HF _]|(s' & -> & _)]; [discriminate|].
  assert (Eq : (js "tenants/" ++ t ++ js "/") ++ js "documents" ++ ch "/" :: s'
               = js "tenants/" ++ t ++ js "/documents/" ++ s')
    by (rewrite <- !app_assoc; reflexivity).
  rewrite Eq. apply validateS3Key_canonical. now apply sanitizeTenantId_clean.
Qed.

Lemma download_check_implies_guard_witness :
  S3Guard.validateS3Key (js "tenants/t_1/documents/raw/doc_1/a.pdf") (js "t_1") = true.
Proof. apply download_check_implies_guard; reflexivity. Defined.

(** The check of the download service does not sanitize: for an
    identifier with a [/] it accepts a key of another tenant's prefix. *)
Example download_check_unsanitized :
  Download.validateS3Key (Some (js "tenants/a/documents/x/y")) (js "a/documents") = true
  /\ S3Guard.validateS3Key (js "tenants/a/documents/x/y") (js "a/documents") = false.
Proof. split; reflexivity. Qed.



Lemma existsb_mono {A : Type} (f : A -> bool) l l' :
  (forall x, In x l -> In x l') -> existsb f l = true -> existsb f l' = true.
Proof.
  intros Hsub H. apply existsb_exists in H. destruct H as (x & Hx & Hf).
  apply existsb_exists. exists x. auto.
Qed.

(** X15: access never shrinks when roles are added, and a user without
    any role has access exactly to the documents that neither carry a
    non-empty role list themselves nor lie in a folder that carries one. *)
Theorem checkUserAccess_monotone (doc : document) (roles roles' : list jsstring) :
  ((forall r, In r roles -> In r roles') ->
   checkUserAccess doc roles = true -> checkUserAccess doc roles' = true)
  /\ (checkUserAccess doc [] = true
      <-> (allowedRoles doc = None \/ allowedRoles doc = Some [])
          /\ (docFolder doc = None
              \/ (exists f, docFolder doc = Some f
                            /\ (folderAllowedRoles f = None
                                \/ folderAllowedRoles f = Some [])))).
Proof.
  unfold checkUserAccess. split.
  - intros Hsub. destruct (allowedRoles doc) as [[|r rs]|].
    + destruct (docFolder doc) as [[[[|r rs]|]]|]; auto. apply existsb_mono, Hsub.
    + apply existsb_mono, Hsub.
    + destruct (docFolder doc) as [[[[|r rs]|]]|]; auto. apply existsb_mono, Hsub.
  - destruct (allowedRoles doc) as [[|r rs]|];
      destruct (docFolder doc) as [[[[|r' rs']|]]|];
      cbn [existsb]; split; intros H; try reflexivity; try discriminate;
      try (split; [auto|];
           first [ now left
                 | right; eexists; split; [reflexivity|]; auto ]);
      destruct H as [[H1|H1] [H2|(f & H2 & [H3|H3])]]; try discriminate;
      injection H2 as <-; discriminate.
Qed.

Lemma checkUserAccess_monotone_witness :
  let doc := {| id := js "doc_1"; tenantId := js "t_1"; deletedAt := None;
                storageKey := None;
                allowedRoles := Some [js "ADMIN"; js "EDITOR"]; docFolder := None;
                originalName := None; name := js "a.pdf";
                mimeType := js "application/pdf" |} in
  checkUserAccess doc [js "VIEWER"; js "EDITOR"] = true.
Proof.
  intros doc.
  apply (proj1 (checkUserAccess_monotone doc [js "EDITOR"] [js "VIEWER"; js "EDITOR"])).
  - intros r [<-|[]]. right. now left.
  - reflexivity.
Defined.

(** * Further properties of the ingestion service *)

Import IngestionBatch.

Lemma slice_window {A : Type} i n (l : list A) :
  slice i (i + n) l = firstn n (skipn i l).
Proof. unfold slice. f_equal. lia. Qed.

Lemma slice_skipn {A : Type} i n (l : list A) :
  slice i (i + n) l ++ skipn (i + n) l = skipn i l.
Proof.
  rewrite slice_window. rewrite (Nat.add_comm i n), <- skipn_skipn.
  apply firstn_skipn.
Qed.

Lemma slice_length {A : Type} i n (l : list A) :
  length (slice i (i + n) l) = Nat.min n (length l - i).
Proof. rewrite slice_window, length_firstn, length_skipn. reflexivity. Qed.

(** The texts of the chunks that the loop adds are the text from [i] on. *)
Lemma chunkLoop_texts t d i chunks :
  concat (map Ingestion.text (chunkLoop t d i chunks))
  = concat (map Ingestion.text chunks) ++ skipn i t.
Proof.
  funelim (chunkLoop t d i chunks).
  - match goal with
    | IH : concat (map _ (chunkLoop _ _ _ _)) = _ |- _ => rewrite IH
    end.
    rewrite map_app, concat_app. cbn [map concat Ingestion.text].
    rewrite app_nil_r, <- app_assoc. f_equal. apply slice_skipn.
  - rewrite skipn_all2 by lia. now rewrite app_nil_r.
Qed.

Lemma chunkLoop_sizes t d i chunks :
  Forall (fun c => 1 <= length (Ingestion.text c) <= chunkSize) chunks ->
  Forall (fun c => 1 <= length (Ingestion.text c) <= chunkSize)
         (chunkLoop t d i chunks).
Proof.
  funelim (chunkLoop t d i chunks); intros Hall; [|assumption].
  match goal with IH : _ -> Forall _ (chunkLoop _ _ _ _) |- _ => apply IH end.
  apply Forall_app. split; [assumption|]. constructor; [|constructor].
  cbn [Ingestion.text]. rewrite slice_length. unfold chunkSize. lia.
Qed.

Lemma chunkLoop_numbering t d i chunks :
  (forall n c, nth_error chunks n = Some c ->
               Ingestion.index c = n /\ chunkId c = chunkName d n
               /\ chunkDocumentId c = d) ->
  forall n c, nth_error (chunkLoop t d i chunks) n = Some c ->
              Ingestion.index c = n /\ chunkId c = chunkName d n
              /\ chunkDocumentId c = d.
Proof.
  funelim (chunkLoop t d i chunks); intros Hall; [|assumption].
  match goal with IH : _ -> forall n c, nth_error (chunkLoop _ _ _ _) n = _ -> _ |- _ =>
    apply IH end.
  intros n c Hn. destruct (Nat.lt_ge_cases n (length chunks)) as [Hlt|Hge].
  - rewrite nth_error_app1 in Hn by assumption. now apply Hall.
  - rewrite nth_error_app2 in Hn by assumption.
    destruct (n - length chunks) as [|m] eqn:E.
    + cbn [nth_error] in Hn. injection Hn as <-. cbn.
      assert (n = length chunks) by lia. subst n. auto.
    + cbn [nth_error] in Hn. now destruct m.
Qed.

Lemma ceil_step len i :
  i < len ->
  (len - i + (1000 - 1)) / 1000 = 1 + (len - (i + 1000) + (1000 - 1)) / 1000.
Proof.
  intros Hlt. destruct (Nat.le_gt_cases 1000 (len - i)) as [Hbig|Hsmall].
  - replace (len - i + (1000 - 1))
      with ((len - (i + 1000) + (1000 - 1)) + 1 * 1000) by lia.
    rewrite Nat.div_add by lia. lia.
  - replace (len - (i + 1000) + (1000 - 1)) with 999 by lia.
    replace (len - i + (1000 - 1)) with ((len - i - 1) + 1 * 1000) by lia.
    rewrite Nat.div_add by lia.
    rewrite (Nat.div_small 999) by lia.
    rewrite (Nat.div_small (len - i - 1)) by lia. lia.
Qed.

Lemma chunkLoop_count t d i chunks :
  length (chunkLoop t d i chunks)
  = length chunks + (length t - i + (chunkSize - 1)) / chunkSize.
Proof.
  funelim (chunkLoop t d i chunks).
  - match goal with IH : length (chunkLoop _ _ _ _) = _ |- _ => rewrite IH end.
    rewrite length_app. cbn [length]. unfold chunkSize.
    match goal with Hlt : _ < length _ |- _ => rewrite (ceil_step _ _ Hlt) end.
    lia.
  - unfold chunkSize.
    match goal with Hge : ~ _ < length ?t |- context [length ?t - ?i] =>
      replace (length t - i) with 0 by lia end.
    rewrite Nat.div_small by lia. lia.
Qed.

(** X16: [chunkText] cuts the text without loss and without overlap: the
    texts of the chunks, put end to end, are the text; no chunk is empty
    and none is longer than 1000 code units. *)
Theorem chunkText_partition (t documentId : jsstring) :
  concat (map Ingestion.text (chunkText t documentId)) = t
  /\ Forall (fun c => 1 <= length (Ingestion.text c) <= 1000)
            (chunkText t documentId).
Proof.
  unfold chunkText. split.
  - now rewrite chunkLoop_texts.
  - apply (chunkLoop_sizes t documentId 0 []). constructor.
Qed.

(** X17: [chunkText] returns the text length divided by 1000, rounded
    up, many chunks, none for the empty text; the chunk in place [n] has
    the index [n], the identifier [{documentId}_chunk_{n}] and the
    document identifier given. *)
Theorem chunkText_numbering (t documentId : jsstring) :
  length (chunkText t documentId) = (length t + 999) / 1000
  /\ (forall n c, nth_error (chunkText t documentId) n = Some c ->
                  Ingestion.index c = n
                  /\ chunkId c = chunkName documentId n
                  /\ chunkDocumentId c = documentId).
Proof.
  unfold chunkText. split.
  - rewrite chunkLoop_count. cbn [length]. unfold chunkSize.
    rewrite Nat.sub_0_r. reflexivity.
  - apply chunkLoop_numbering. intros n c H. now destruct n.
Qed.

Lemma chunkText_numbering_witness :
  Ingestion.index {| chunkId := js "d_chunk_0"; Ingestion.text := js "abc";
                     chunkDocumentId := js "d"; Ingestion.index := 0 |} = 0
  /\ js "d_chunk_0" = chunkName (js "d") 0
  /\ js "d" = js "d".
Proof.
  apply (proj2 (chunkText_numbering (js "abc") (js "d")) 0
           {| chunkId := js "d_chunk_0"; Ingestion.text := js "abc";
              chunkDocumentId := js "d"; Ingestion.index := 0 |}).
  reflexivity.
Defined.

(** The requests of a composed computation. *)
Lemma requests_bind {A B} (m : io A) (k : A -> io B) :
  requests (bind m k)
  = requests m ++ match outcome m with
                  | Ok a => requests (k a)
                  | Throw _ => []
                  end.
Proof.
  destruct m as [[a|msg] t]; cbn [bind outcome requests fst snd].
  - now destruct (k a).
  - now rewrite app_nil_r.
Qed.

Lemma outcome_bind {A B} (m : io A) (k : A -> io B) :
  outcome (bind m k)
  = match outcome m with
    | Ok a => outcome (k a)
    | Throw msg => Throw msg
    end.
Proof.
  destruct m as [[a|msg] t]; cbn [bind outcome fst]; [|reflexivity].
  now destruct (k a).
Qed.

Lemma requests_tryCatch {A} (m : io A) (h : string -> io A) :
  requests (tryCatch m h)
  = requests m ++ match outcome m with
                  | Ok _ => []
                  | Throw msg => requests (h msg)
                  end.
Proof.
  destruct m as [[a|msg] t]; cbn [tryCatch outcome requests fst snd].
  - now rewrite app_nil_r.
  - now destruct (h msg).
Qed.

Lemma Forall_bind {A B} (P : event -> Prop) (m : io A) (k : A -> io B) :
  Forall P (requests m) ->
  (forall a, outcome m = Ok a -> Forall P (requests (k a))) ->
  Forall P (requests (bind m k)).
Proof.
  intros Hm Hk. rewrite requests_bind. apply Forall_app. split; [assumption|].
  destruct (outcome m); [now apply Hk|constructor].
Qed.

Lemma Forall_tryCatch {A} (P : event -> Prop) (m : io A) (h : string -> io A) :
  Forall P (requests m) ->
  (forall msg, Forall P (requests (h msg))) ->
  Forall P (requests (tryCatch m h)).
Proof.
  intros Hm Hh. rewrite requests_tryCatch. apply Forall_app. split; [assumption|].
  destruct (outcome m); [constructor|apply Hh].
Qed.

Lemma Forall_call {A} (P : event -> Prop) (e : event) (r : result A) :
  P e -> Forall P (requests (call e r)).
Proof. intros H. repeat constructor. exact H. Qed.

Lemma storeEmbeddings_scope c s3Key tenantId documentId embeddings i chunks :
  Forall (inScope tenantId documentId s3Key)
         (requests (storeEmbeddings c s3Key tenantId documentId embeddings i chunks)).
Proof.
  revert i. induction chunks as [|chunk chunks IH]; intros i; [constructor|].
  cbn [storeEmbeddings]. apply Forall_bind.
  - apply Forall_call. cbn. auto.
  - intros _ _. apply IH.
Qed.

(** The requests of [processDocument] stay within the document. *)
Lemma processDocument_inScope c s3Key tenantId documentId :
  Forall (inScope tenantId documentId s3Key)
         (requests (processDocument c s3Key tenantId documentId)).
Proof.
  unfold processDocument. apply Forall_tryCatch; [|constructor].
  destruct (negb (S3Guard.validateS3Key s3Key tenantId)); [constructor|].
  apply Forall_bind.
  { unfold fetchDocumentFromS3. apply Forall_tryCatch; [|constructor].
    now apply Forall_call. }
  intros buffer _. apply Forall_bind; [now apply Forall_call|].
  intros extracted _. apply Forall_bind; [apply Forall_call; cbn; auto|].
  intros _ _. apply Forall_bind; [now apply Forall_call|].
  intros embeddings _. apply Forall_bind; [apply storeEmbeddings_scope|].
  intros _ _. apply Forall_bind; [apply Forall_call; cbn; auto|].
  intros _ _. constructor.
Qed.

Lemma processDocument_guarded c s3Key tenantId documentId :
  requests (processDocument c s3Key tenantId documentId) <> [] ->
  S3Guard.validateS3Key s3Key tenantId = true.
Proof.
  destruct (S3Guard.validateS3Key s3Key tenantId) eqn:E; [reflexivity|].
  unfold processDocument. rewrite E. cbn. congruence.
Qed.

(** X18: whatever the collaborators answer, [processDocument] reads no
    object but the key it was given, and only if the guard validates the
    key for the tenant; every embedding it stores carries the tenant
    identifier, the document identifier and the key as its source; and the
    only statuses it writes, to the document given, are EXTRACTED and
    READY, never ERROR. *)
Theorem processDocument_scope
    (c : Ingestion.collaborators) (s3Key tenantId documentId : jsstring) :
  Forall (inScope tenantId documentId s3Key)
         (requests (processDocument c s3Key tenantId documentId))
  /\ (requests (processDocument c s3Key tenantId documentId) <> [] ->
      S3Guard.validateS3Key s3Key tenantId = true)
  /\ (forall d, ~ In (DocumentUpdate d "ERROR")
                     (requests (processDocument c s3Key tenantId documentId))).
Proof.
  split; [apply processDocument_inScope|]. split; [apply processDocument_guarded|].
  intros d Hin.
  pose proof (processDocument_inScope c s3Key tenantId documentId) as H.
  rewrite Forall_forall in H. specialize (H _ Hin). cbn in H.
  destruct H as [_ [H|H]]; discriminate.
Qed.

Lemma processDocument_scope_witness :
  let c := {| getObject := fun _ => Ok [Byte.x25; Byte.x50];
              extract := fun _ => Ok (js "text");
              documentUpdate := fun _ _ => Ok tt;
              generateEmbeddings := fun _ => Throw "embedder down";
              storeEmbedding := fun _ => Ok tt |} in
  processDocument c (js "tenants/t_1/documents/raw/doc_x/f.pdf") (js "t_1") (js "doc_x")
  = (Ok false,
     [S3GetObject (js "tenants/t_1/documents/raw/doc_x/f.pdf");
      ExtractText [Byte.x25; Byte.x50];
      DocumentUpdate (js "doc_x") "EXTRACTED";
      GenerateEmbeddings [js "text"]])
  /\ S3Guard.validateS3Key (js "tenants/t_1/documents/raw/doc_x/f.pdf") (js "t_1") = true.
Proof.
  intros c. split; [reflexivity|].
  apply (proj1 (proj2 (processDocument_scope c
           (js "tenants/t_1/documents/raw/doc_x/f.pdf") (js "t_1") (js "doc_x")))).
  discriminate.
Defined.

(** X19: [processDocument] returns [true] only when the guard validates
    the key and every request was answered; the READY update is then its
    last request. *)
Theorem processDocument_success
    (c : Ingestion.collaborators) (s3Key tenantId documentId : jsstring) :
  outcome (processDocument c s3Key tenantId documentId) = Ok true ->
  S3Guard.validateS3Key s3Key tenantId = true
  /\ documentUpdate c documentId "READY" = Ok tt
  /\ exists before,
      requests (processDocument c s3Key tenantId documentId)
      = S3GetObject s3Key :: before ++ [DocumentUpdate documentId "READY"].
Proof.
  unfold processDocument, fetchDocumentFromS3.
  destruct (S3Guard.validateS3Key s3Key tenantId); cbn [negb]; [|discriminate].
  destruct (getObject c s3Key) as [buffer|m];
    cbn [bind call tryCatch throw ret outcome requests fst snd app]; [|discriminate].
  destruct (extract c buffer) as [extracted|m];
    cbn [bind call tryCatch throw ret outcome requests fst snd app]; [|discriminate].
  destruct (documentUpdate c documentId "EXTRACTED") as [[]|m];
    cbn [bind call tryCatch throw ret outcome requests fst snd app]; [|discriminate].
  destruct (generateEmbeddings c _) as [embeddings|m];
    cbn [bind call tryCatch throw ret outcome requests fst snd app]; [|discriminate].
  destruct (storeEmbeddings c s3Key tenantId documentId embeddings 0 _) as [[[]|m] t];
    cbn [bind call tryCatch throw ret outcome requests fst snd app]; [|discriminate].
  destruct (documentUpdate c documentId "READY") as [[]|m];
    cbn [bind call tryCatch throw ret outcome requests fst snd app]; [|discriminate].
  intros _. repeat split.
  eexists (_ :: _ :: _ :: t). rewrite ?app_nil_r. reflexivity.
Qed.

Lemma processDocument_success_witness :
  let c := {| getObject := fun _ => Ok [Byte.x25; Byte.x50];
              extract := fun _ => Ok (js "text");
              documentUpdate := fun _ _ => Ok tt;
              generateEmbeddings := fun texts => Ok (map (fun _ => [0%Z]) texts);
              storeEmbedding := fun _ => Ok tt |} in
  S3Guard.validateS3Key (js "tenants/t_1/documents/raw/doc_x/f.pdf") (js "t_1") = true.
Proof.
  intros c.
  apply (processDocument_success c (js "tenants/t_1/documents/raw/doc_x/f.pdf")
           (js "t_1") (js "doc_x")).
  reflexivity.
Defined.

(** The loop over the rows: it does not throw, counts the rows whose
    processing returned [true], and sends the requests of each row in
    turn. *)
Lemma processEach_run c tenantId documents n :
  processEach c tenantId documents n
  = (Ok (n + length (filter (processed c tenantId) documents)),
     flat_map (requestsOfRow c tenantId) documents).
Proof.
  revert n. induction documents as [|d documents IH]; intros n.
  - cbn. now rewrite Nat.add_0_r.
  - cbn [processEach filter flat_map]. unfold processed at 1, requestsOfRow at 1.
    destruct (keyBelongs d tenantId); cbn [andb].
    + destruct (processDocument_returns c (keyOf d) tenantId (rowId d)) as [b Hb].
      destruct (processDocument c (keyOf d) tenantId (rowId d)) as [r t].
      cbn [outcome fst snd] in *. subst r. cbn [bind]. rewrite IH.
      destruct b; cbn [length]; rewrite <- ?plus_n_Sm; reflexivity.
    + rewrite IH. reflexivity.
Qed.

(** X20: a batch never throws and handles its rows one by one: the
    requests of [processAllTenantDocuments] are the requests of the
    processing of each selected row in turn, none for a row whose key is
    missing or refused by the guard, and the count returned is the number
    of rows whose processing returned [true]; at most 100 rows are
    selected. *)
Theorem processAllTenantDocuments_run
    (c : Ingestion.collaborators) (db : list documentRow) (tenantId : jsstring) :
  processAllTenantDocuments c db tenantId
  = (Ok (length (filter (processed c tenantId) (findTenantDocuments db tenantId))),
     flat_map (requestsOfRow c tenantId) (findTenantDocuments db tenantId))
  /\ length (findTenantDocuments db tenantId) <= 100
  /\ length (filter (processed c tenantId) (findTenantDocuments db tenantId)) <= 100.
Proof.
  unfold processAllTenantDocuments. rewrite processEach_run. cbn [tryCatch Nat.add].
  split; [reflexivity|].
  assert (H : length (findTenantDocuments db tenantId) <= 100)
    by (unfold findTenantDocuments; rewrite length_firstn; lia).
  split; [exact H|].
  pose proof (filter_length_le_self (processed c tenantId)
                (findTenantDocuments db tenantId)). lia.
Qed.

Lemma getRequests_app a b : getRequests (a ++ b) = getRequests a ++ getRequests b.
Proof. apply flat_map_app. Qed.

Lemma In_getRequests key t : In key (getRequests t) <-> In (S3GetObject key) t.
Proof.
  unfold getRequests. rewrite in_flat_map. split.
  - intros (e & He & Hk). destruct e; try contradiction.
    destruct Hk as [<-|[]]. exact He.
  - intros H. exists (S3GetObject key). split; [assumption|now left].
Qed.

(** A read request of a batch is the read request of one of its rows. *)
Lemma batch_get_request c tenantId documents key :
  In (S3GetObject key) (flat_map (requestsOfRow c tenantId) documents) ->
  exists d, In d documents /\ rowStorageKey d = Some key
            /\ S3Guard.validateS3Key key tenantId = true.
Proof.
  intros H. apply in_flat_map in H. destruct H as (d & Hd & Hin).
  exists d. split; [assumption|]. unfold requestsOfRow in Hin.
  destruct (keyBelongs d tenantId) eqn:Eb; [|contradiction].
  pose proof (processDocument_inScope c (keyOf d) tenantId (rowId d)) as Hs.
  rewrite Forall_forall in Hs. specialize (Hs _ Hin). cbn in Hs. subst key.
  unfold keyBelongs in Eb. unfold keyOf.
  destruct (rowStorageKey d) as [[|x k]|]; try discriminate. now split.
Qed.

Lemma In_firstn_In {A : Type} n (l : list A) x : In x (firstn n l) -> In x l.
Proof.
  revert l. induction n as [|n IH]; intros [|a l] H; try contradiction.
  destruct H as [<-|H]; [now left|right; auto].
Qed.

(** X21: every object that [processAllTenantDocuments] reads is stored
    under the key of a row of the database that belongs to the tenant,
    is not deleted and has the status PENDING or EXTRACTED, and the guard
    validates this key for the tenant. *)
Theorem processAllTenantDocuments_reads
    (c : Ingestion.collaborators) (db : list documentRow) (tenantId key : jsstring) :
  In (S3GetObject key) (requests (processAllTenantDocuments c db tenantId)) ->
  S3Guard.validateS3Key key tenantId = true
  /\ exists d, In d db /\ rowStorageKey d = Some key /\ rowTenantId d = tenantId
               /\ rowDeletedAt d = None
               /\ (rowStatus d = "PENDING"%string \/ rowStatus d = "EXTRACTED"%string).
Proof.
  unfold processAllTenantDocuments. rewrite processEach_run.
  cbn [tryCatch requests snd]. intros H.
  destruct (batch_get_request _ _ _ _ H) as (d & Hd & Hk & Hv).
  split; [exact Hv|]. exists d.
  unfold findTenantDocuments in Hd. apply In_firstn_In in Hd.
  apply filter_In in Hd. destruct Hd as [Hin Hc].
  apply andb_true_iff in Hc. destruct Hc as [Hc Hdel].
  apply andb_true_iff in Hc. destruct Hc as [Ht Hst].
  apply jsstring_eqb_eq in Ht. unfold needsProcessing in Hst.
  apply orb_true_iff in Hst. rewrite !String.eqb_eq in Hst.
  destruct (rowDeletedAt d); [discriminate|]. auto 6.
Qed.


(** X23: [listTenantDocuments] sends one list request, for the prefix
    [tenants/{tenantId}/documents/{subfolder}/]; the keys it returns are
    keys of the answer that the guard validates for the tenant, in the
    order of the answer; a failed request is thrown on. *)
Theorem listTenantDocuments_run
    (listObjectsV2 : jsstring -> result Deletion.listPage)
    (tenantId subfolder : jsstring) :
  let prefix := js "tenants/" ++ tenantId ++ js "/documents/" ++ subfolder ++ js "/" in
  requests (listTenantDocuments listObjectsV2 tenantId subfolder) = [S3ListObjects prefix]
  /\ match listObjectsV2 prefix with
     | Ok response =>
         outcome (listTenantDocuments listObjectsV2 tenantId subfolder)
         = Ok (filterTenantS3Keys (pageKeys response) tenantId)
         /\ (forall key, In key (filterTenantS3Keys (pageKeys response) tenantId) ->
                         In key (pageKeys response)
                         /\ S3Guard.validateS3Key key tenantId = true)
     | Throw message =>
         outcome (listTenantDocuments listObjectsV2 tenantId subfolder) = Throw message
     end.
Proof.
  intros prefix. unfold listTenantDocuments. fold prefix.
  destruct (listObjectsV2 prefix) as [response|m];
    cbn [bind call ret tryCatch throw outcome requests fst snd app].
  - repeat split; try reflexivity; now apply filterTenantS3Keys_valid in H.
  - split; reflexivity.
Qed.

Example batch_with_foreign_key :
  let c := {| getObject := fun _ => Ok [Byte.x25];
              extract := fun _ => Ok (js "text");
              documentUpdate := fun _ _ => Ok tt;
              generateEmbeddings := fun texts => Ok (map (fun _ => [0%Z]) texts);
              storeEmbedding := fun _ => Ok tt |} in
  let row i key := {| rowId := i; rowTenantId := js "t_1"; rowFolderId := None;
                      rowStatus := "PENDING"; rowDeletedAt := None;
                      rowStorageKey := Some key |} in
  let db := [row (js "a") (js "tenants/t_1/documents/raw/a/f.pdf");
             row (js "x") (js "tenants/t_2/documents/raw/doc_x/f.pdf");
             row (js "b") (js "tenants/t_1/documents/raw/b/g.pdf")] in
  outcome (processAllTenantDocuments c db (js "t_1")) = Ok 2
  /\ getRequests (requests (processAllTenantDocuments c db (js "t_1")))
     = [js "tenants/t_1/documents/raw/a/f.pdf"; js "tenants/t_1/documents/raw/b/g.pdf"].
Proof. split; reflexivity. Qed.

Lemma processAllTenantDocuments_reads_witness :
  S3Guard.validateS3Key (js "tenants/t_1/documents/raw/b/g.pdf") (js "t_1") = true
  /\ exists d, In d exampleRows
               /\ rowStorageKey d = Some (js "tenants/t_1/documents/raw/b/g.pdf")
               /\ rowTenantId d = js "t_1" /\ rowDeletedAt d = None
               /\ (rowStatus d = "PENDING"%string \/ rowStatus d = "EXTRACTED"%string).
Proof.
  apply (processAllTenantDocuments_reads exampleIngestion exampleRows (js "t_1")).
  apply In_getRequests. vm_compute. right. now left.
Defined.


Lemma listTenantDocuments_run_witness :
  let answer := fun _ : jsstring =>
    Ok {| Contents := Some [js "tenants/t_1/documents/raw/a/f.pdf";
                            js "tenants/t_1/documents/raw/../../t_2/x";
                            js "tenants/t_1/other/y"] |} in
  listTenantDocuments answer (js "t_1") (js "raw")
  = (Ok [js "tenants/t_1/documents/raw/a/f.pdf";
         js "tenants/t_1/documents/raw/../../t_2/x"],
     [S3ListObjects (js "tenants/t_1/documents/raw/")])
  /\ S3Guard.validateS3Key (js "tenants/t_1/documents/raw/a/f.pdf") (js "t_1") = true.
Proof.
  intros answer. split; [reflexivity|].
  pose proof (listTenantDocuments_run answer (js "t_1") (js "raw")) as [_ H].
  cbv beta iota delta [answer] in H. destruct H as [_ H].
  apply (H (js "tenants/t_1/documents/raw/a/f.pdf")). vm_compute. now left.
Defined.

(** * Further properties of the tenant deletion service *)

Import DeletionComplete.

(** The batches of the loop: their sizes, their order, and their number
    when the loop returns. *)
Lemma deleteLoop_batches c validObjects i totalDeleted :
  Forall (fun b => 1 <= length b <= 1000)
         (deleteRequests (requests (deleteLoop c validObjects i totalDeleted)))
  /\ (exists rest,
         skipn i validObjects
         = concat (deleteRequests (requests (deleteLoop c validObjects i totalDeleted)))
           ++ rest)
  /\ (forall n,
         outcome (deleteLoop c validObjects i totalDeleted) = Ok n ->
         concat (deleteRequests (requests (deleteLoop c validObjects i totalDeleted)))
         = skipn i validObjects
         /\ length (deleteRequests (requests (deleteLoop c validObjects i totalDeleted)))
            = (length validObjects - i + (1000 - 1)) / 1000).
Proof.
  funelim (deleteLoop c validObjects i totalDeleted).
  - (* past the end *)
    cbn [ret requests snd deleteRequests flat_map concat length outcome fst].
    split; [constructor|]. split.
    + eexists. reflexivity.
    + intros m _. split.
      * symmetry. apply skipn_all2. lia.
      * match goal with Hge : ~ _ < length ?t |- context [length ?t - ?i] =>
          replace (length t - i) with 0 by lia end.
        now rewrite Nat.div_small by lia.
  - (* the request is answered *)
    match goal with
    | IH : Forall _ _ /\ _ |- _ => destruct IH as (IH1 & (rest & IH2) & IH3)
    end.
    destruct (deleteLoop c validObjects (i + batchSize) _) as [r t].
    cbn [requests snd deleteRequests flat_map app concat outcome fst] in *.
    split; [|split].
    + constructor; [|exact IH1]. rewrite slice_length. unfold batchSize. lia.
    + exists rest. rewrite <- app_assoc, <- IH2. symmetry. apply slice_skipn.
    + intros m Hm. destruct (IH3 m Hm) as [Hc Hl]. split.
      * rewrite Hc. apply slice_skipn.
      * cbn [length]. rewrite Hl. unfold batchSize.
        match goal with Hlt : _ < length _ |- _ => rewrite (ceil_step _ _ Hlt) end.
        reflexivity.
  - (* the request throws *)
    cbn [requests snd deleteRequests flat_map app concat outcome fst].
    split; [|split; [|discriminate]].
    + constructor; [|constructor]. rewrite slice_length. unfold batchSize. lia.
    + exists (skipn (i + batchSize) validObjects).
      rewrite app_nil_r. symmetry. apply slice_skipn.
Qed.

(** X24: the batch loop sends the keys in order, each at most once, in
    batches of one to 1000 keys; when no delete request throws, whatever
    errors the answers report, every key is sent and the number of
    requests is the number of keys divided by 1000, rounded up. *)
Theorem deleteLoop_batching (c : Deletion.collaborators) (validObjects : list jsstring) :
  Forall (fun b => 1 <= length b <= 1000)
         (deleteRequests (requests (deleteLoop c validObjects 0 0)))
  /\ (exists rest,
         validObjects
         = concat (deleteRequests (requests (deleteLoop c validObjects 0 0))) ++ rest)
  /\ (forall n,
         outcome (deleteLoop c validObjects 0 0) = Ok n ->
         concat (deleteRequests (requests (deleteLoop c validObjects 0 0)))
         = validObjects
         /\ length (deleteRequests (requests (deleteLoop c validObjects 0 0)))
            = (length validObjects + 999) / 1000).
Proof.
  destruct (deleteLoop_batches c validObjects 0 0) as (H1 & H2 & H3).
  split; [exact H1|]. split; [exact H2|].
  intros n Hn. destruct (H3 n Hn) as [Hc Hl]. split; [exact Hc|].
  rewrite Hl, Nat.sub_0_r. reflexivity.
Qed.

Lemma deleteLoop_batching_witness :
  let keys := [js "tenants/t_9/documents/raw/d1/a.pdf";
               js "tenants/t_9/documents/raw/d2/b.pdf";
               js "tenants/t_9/documents/extracted/d1/a.pdf.txt"] in
  concat (deleteRequests (requests (deleteLoop (exampleBackend keys) keys 0 0))) = keys
  /\ length (deleteRequests (requests (deleteLoop (exampleBackend keys) keys 0 0)))
     = (length keys + 999) / 1000.
Proof.
  intros keys.
  apply (proj2 (proj2 (deleteLoop_batching (exampleBackend keys) keys)) 3).
  reflexivity.
Defined.

(** The delete requests of a run are those of its batch loop over the
    listed keys, all of which validate. *)
Lemma deleteTenantS3Data_deletes c tenantId force :
  deleteRequests (requests (deleteTenantS3Data c tenantId force)) = []
  \/ exists listed t,
      listTenantObjects c tenantId = (Ok listed, t)
      /\ filterTenantS3Keys listed tenantId = listed
      /\ deleteRequests (requests (deleteTenantS3Data c tenantId force))
         = deleteRequests (requests (deleteLoop c listed 0 0)).
Proof.
  unfold deleteTenantS3Data.
  pose proof (listTenantObjects_requests c tenantId) as [Hd _].
  destruct (sanitizeTenantId (JString tenantId)); [|now left].
  destruct (tenantFindUnique c tenantId) as [[|]|m]; try (now left).
  destruct (userCount c tenantId) as [n|m]; [|now left].
  cbn [bind call negb].
  destruct ((0 <? n)%nat && negb force); [now left|].
  destruct (negb _ || negb _); [now left|].
  destruct (listTenantObjects c tenantId) as [[listed|m] t];
    cbn [requests snd] in Hd; cbn [bind].
  2:{ left. cbn [tryCatch throw requests snd app]. rewrite app_nil_r.
      cbn [deleteRequests flat_map app]. exact Hd. }
  destruct (length listed =? 0)%nat.
  { left. cbn [ret tryCatch requests snd app]. rewrite app_nil_r.
    cbn [deleteRequests flat_map app]. exact Hd. }
  destruct (length (filterTenantS3Keys listed tenantId) =? length listed)%nat eqn:El;
    cbn [negb].
  2:{ left. cbn [tryCatch throw requests snd app]. rewrite !app_nil_r.
      cbn [deleteRequests flat_map app]. exact Hd. }
  apply Nat.eqb_eq in El.
  assert (Ef : filterTenantS3Keys listed tenantId = listed).
  { apply filter_id. now apply filter_length_all. }
  right. exists listed, t. split; [reflexivity|]. split; [exact Ef|]. rewrite Ef.
  destruct (deleteLoop c listed 0 0) as [[total|m] t2]; cbn [bind].
  - rewrite logDeletionAudit_run.
    cbn [bind ret tryCatch requests snd app].
    change (?a :: ?b :: t ++ t2 ++ ?x) with ([a; b] ++ t ++ t2 ++ x).
    rewrite !deleteRequests_app, Hd. cbn [deleteRequests flat_map app].
    now rewrite app_nil_r.
  - cbn [tryCatch throw requests snd app]. rewrite !app_nil_r.
    change (?a :: ?b :: t ++ t2) with ([a; b] ++ t ++ t2).
    rewrite !deleteRequests_app, Hd. reflexivity.
Qed.

(** X25: in every run of [deleteTenantS3Data], whatever the backend
    answers, each key of each delete request is a key that the listing of
    the tenant prefix returned and that the guard validates for the
    tenant. *)
Theorem deletion_deletes_only_valid_keys
    (c : Deletion.collaborators) (tenantId : jsstring) (force : bool)
    (batch : list jsstring) (key : jsstring) :
  In batch (deleteRequests (requests (deleteTenantS3Data c tenantId force))) ->
  In key batch ->
  S3Guard.validateS3Key key tenantId = true
  /\ exists listed t, listTenantObjects c tenantId = (Ok listed, t) /\ In key listed.
Proof.
  intros Hb Hk.
  destruct (deleteTenantS3Data_deletes c tenantId force)
    as [E|(listed & t & HL & Hf & E)]; rewrite E in Hb; [contradiction|].
  destruct (deleteLoop_batches c listed 0 0) as (_ & (rest & Hp) & _).
  assert (Hin : In key listed).
  { cbn [skipn] in Hp. rewrite Hp. apply in_or_app. left.
    apply in_concat. exists batch. now split. }
  split; [|now exists listed, t].
  rewrite <- Hf in Hin. now apply filterTenantS3Keys_valid in Hin.
Qed.

Lemma deletion_deletes_only_valid_keys_witness :
  let keys := [js "tenants/t_9/documents/raw/d1/a.pdf";
               js "tenants/t_9/documents/raw/d2/b.pdf"] in
  S3Guard.validateS3Key (js "tenants/t_9/documents/raw/d2/b.pdf") (js "t_9") = true
  /\ exists listed t,
      listTenantObjects (exampleBackend keys) (js "t_9") = (Ok listed, t)
      /\ In (js "tenants/t_9/documents/raw/d2/b.pdf") listed.
Proof.
  intros keys.
  apply (deletion_deletes_only_valid_keys (exampleBackend keys) (js "t_9") false keys).
  - vm_compute. now left.
  - right. now left.
Defined.

(** X26: a failed preliminary check stops the workflow before any request
    to the object store: an identifier that sanitizes to nothing is
    refused without any request, an unknown tenant after the tenant
    lookup, and a tenant with active users, unless [force] is set, after
    the count of its users. *)
Theorem deletion_prechecks (c : Deletion.collaborators) (tenantId : jsstring)
    (force : bool) :
  (sanitizeTenantId (JString tenantId) = None ->
   deleteTenantS3Data c tenantId force = (Throw "Invalid tenant ID format", []))
  /\ (sanitizeTenantId (JString tenantId) <> None ->
      tenantFindUnique c tenantId = Ok false ->
      deleteTenantS3Data c tenantId force
      = (Throw "Tenant not found", [TenantFindUnique tenantId]))
  /\ (forall activeUsers,
         sanitizeTenantId (JString tenantId) <> None ->
         tenantFindUnique c tenantId = Ok true ->
         userCount c tenantId = Ok activeUsers ->
         0 < activeUsers -> force = false ->
         deleteTenantS3Data c tenantId force
         = (Throw (activeUsersMessage activeUsers),
            [TenantFindUnique tenantId; UserCount tenantId])).
Proof.
  unfold deleteTenantS3Data. repeat split.
  - intros ->. reflexivity.
  - intros Hs Ht. destruct (sanitizeTenantId (JString tenantId)); [|congruence].
    now rewrite Ht.
  - intros n Hs Ht Hu Hn ->.
    destruct (sanitizeTenantId (JString tenantId)); [|congruence].
    rewrite Ht, Hu. cbn [bind call negb].
    apply Nat.ltb_lt in Hn. rewrite Hn. reflexivity.
Qed.

Lemma deletion_prechecks_witness :
  deleteTenantS3Data (exampleBackend []) (js "???") false
  = (Throw "Invalid tenant ID format", [])
  /\ deleteTenantS3Data
       {| tenantFindUnique := fun _ => Ok true;
          userCount := fun _ => Ok 12;
          listObjects := listObjects (exampleBackend []);
          deleteObjects := deleteObjects (exampleBackend []);
          auditLogCreate := fun _ => Ok tt;
          now := 0 |} (js "t_9") false
     = (Throw "Tenant has 12 active users. Use force=true to override.",
        [TenantFindUnique (js "t_9"); UserCount (js "t_9")]).
Proof.
  split.
  - apply (proj1 (deletion_prechecks (exampleBackend []) (js "???") false)).
    reflexivity.
  - apply (proj2 (proj2 (deletion_prechecks _ (js "t_9") false)) 12);
      try reflexivity; try discriminate. lia.
Defined.

Lemma firstn_add_skipn {A : Type} a b (l : list A) :
  firstn a l ++ firstn b (skipn a l) = firstn (a + b) l.
Proof.
  revert l. induction a as [|a IH]; intros l; [reflexivity|].
  destruct l as [|x l]; cbn [firstn skipn Nat.add app].
  - now rewrite firstn_nil.
  - f_equal. apply IH.
Qed.

Lemma slice_append {A : Type} i k m (l : list A) :
  i <= k -> k <= m -> slice i k l ++ slice k m l = slice i m l.
Proof.
  intros Hik Hkm. unfold slice.
  assert (E : skipn k l = skipn (k - i) (skipn i l))
    by (rewrite skipn_skipn; f_equal; lia).
  rewrite E, firstn_add_skipn. f_equal. lia.
Qed.

(** A delete request that throws ends the loop: the error is the outcome
    and no key after the failed batch is sent. *)
Lemma deleteLoop_throw c validObjects i totalDeleted message :
  outcome (deleteLoop c validObjects i totalDeleted) = Throw message ->
  exists j,
    i <= j
    /\ deleteObjects c j (slice j (j + 1000) validObjects) = Throw message
    /\ concat (deleteRequests (requests (deleteLoop c validObjects i totalDeleted)))
       = slice i (j + 1000) validObjects.
Proof.
  funelim (deleteLoop c validObjects i totalDeleted).
  - discriminate.
  - intros Ho.
    match goal with
    | IH : forall _, _ -> ex _ |- _ => rename IH into IHloop
    end.
    destruct (deleteLoop c validObjects (i + batchSize) _) as [r t].
    cbn [requests snd deleteRequests flat_map app concat outcome fst] in *.
    destruct (IHloop _ Ho) as (j & Hj & Hthrow & Hc).
    exists j. split; [unfold batchSize in Hj; lia|]. split; [exact Hthrow|].
    rewrite Hc. unfold batchSize in *. apply slice_append; lia.
  - cbn [requests snd deleteRequests flat_map app concat outcome fst].
    intros Ho. injection Ho as <-. exists i. split; [lia|].
    split; [assumption|]. now rewrite app_nil_r.
Qed.

(** X27: a delete request that throws is not caught by the workflow:
    when the checks and the listing have passed and the batch loop throws,
    [deleteTenantS3Data] throws the same error, writes no audit entry, and
    has sent the keys up to the end of the failed batch and none after
    it. *)
Theorem deletion_batch_failure_aborts
    (c : Deletion.collaborators) (tenantId : jsstring) (force : bool)
    (activeUsers : nat) (listed : list jsstring) (t : list event) (message : string) :
  sanitizeTenantId (JString tenantId) <> None ->
  tenantFindUnique c tenantId = Ok true ->
  userCount c tenantId = Ok activeUsers ->
  activeUsers = 0 \/ force = true ->
  listTenantObjects c tenantId = (Ok listed, t) ->
  listed <> [] ->
  filterTenantS3Keys listed tenantId = listed ->
  outcome (deleteLoop c listed 0 0) = Throw message ->
  outcome (deleteTenantS3Data c tenantId force) = Throw message
  /\ auditEntries (requests (deleteTenantS3Data c tenantId force)) = []
  /\ exists j,
      deleteObjects c j (slice j (j + 1000) listed) = Throw message
      /\ concat (deleteRequests (requests (deleteTenantS3Data c tenantId force)))
         = firstn (j + 1000) listed.
Proof.
  intros Hs Ht Hu Hf HL Hne Hv Ho.
  destruct (deleteLoop_throw _ _ _ _ _ Ho) as (j & _ & Hthrow & Hc).
  pose proof (listTenantObjects_requests c tenantId) as [Hd Ha].
  pose proof (deleteLoop_requests c listed 0 0) as Ha2.
  rewrite (deleteTenantS3Data_after_checks c tenantId force activeUsers) by assumption.
  rewrite HL in *. cbn [requests snd] in Hd, Ha. cbn [bind call].
  assert (E0 : (length listed =? 0)%nat = false)
    by (destruct listed; [congruence|reflexivity]).
  rewrite E0, Hv, Nat.eqb_refl. cbn [negb].
  destruct (deleteLoop c listed 0 0) as [[total|m] t2];
    cbn [outcome fst requests snd] in *; [discriminate|].
  injection Ho as ->.
  cbn [bind tryCatch throw outcome requests fst snd app]. rewrite !app_nil_r.
  change (?a :: ?b :: t ++ t2) with ([a; b] ++ t ++ t2).
  rewrite !auditEntries_app, !deleteRequests_app, Ha, Ha2, Hd.
  split; [reflexivity|]. split; [reflexivity|].
  exists j. split; [exact Hthrow|]. cbn [deleteRequests flat_map app].
  rewrite Hc. unfold slice. cbn [skipn]. f_equal. lia.
Qed.

Lemma deletion_batch_failure_aborts_witness :
  let keys := [js "tenants/t_9/documents/raw/d1/a.pdf";
               js "tenants/t_9/documents/raw/d2/b.pdf"] in
  let c := {| tenantFindUnique := fun _ => Ok true;
              userCount := fun _ => Ok 0;
              listObjects := listObjects (exampleBackend keys);
              deleteObjects := fun _ _ => Throw "SlowDown";
              auditLogCreate := fun _ => Ok tt;
              now := 0 |} in
  outcome (deleteTenantS3Data c (js "t_9") false) = Throw "SlowDown"
  /\ auditEntries (requests (deleteTenantS3Data c (js "t_9") false)) = []
  /\ exists j,
      deleteObjects c j (slice j (j + 1000) keys) = Throw "SlowDown"
      /\ concat (deleteRequests (requests (deleteTenantS3Data c (js "t_9") false)))
         = firstn (j + 1000) keys.
Proof.
  intros keys c.
  apply (deletion_batch_failure_aborts c (js "t_9") false 0 keys
           [S3ListObjects (js "tenants/t_9/")]);
    try reflexivity; try discriminate. now left.
Defined.

Lemma verifyTenantDataDeletion_eq c tenantId :
  verifyTenantDataDeletion c tenantId
  = (Ok match outcome (listTenantObjects c tenantId) with
        | Ok [] => true
        | _ => false
        end,
     requests (listTenantObjects c tenantId)).
Proof.
  unfold verifyTenantDataDeletion.
  destruct (listTenantObjects c tenantId) as [[[|k keys]|m] t];
    cbn [bind ret tryCatch outcome requests fst snd length Nat.eqb app];
    rewrite ?app_nil_r; reflexivity.
Qed.

(** X28: [verifyTenantDataDeletion] never throws: it sends the list
    requests of one listing of the tenant prefix and returns [true]
    exactly when the listing succeeds and returns no key; a failed listing
    counts as not clean. *)
Theorem verifyTenantDataDeletion_run (c : Deletion.collaborators) (tenantId : jsstring) :
  verifyTenantDataDeletion c tenantId
  = (Ok match outcome (listTenantObjects c tenantId) with
        | Ok [] => true
        | _ => false
        end,
     requests (listTenantObjects c tenantId))
  /\ auditEntries (requests (verifyTenantDataDeletion c tenantId)) = []
  /\ deleteRequests (requests (verifyTenantDataDeletion c tenantId)) = [].
Proof.
  pose proof (listTenantObjects_requests c tenantId) as [Hd Ha].
  rewrite verifyTenantDataDeletion_eq. cbn [requests snd]. auto.
Qed.

(** The requests inside the transaction are sent in the order documents,
    folders, users, tenant, each after the one before was answered. *)
Lemma deleteTenantDatabaseRecords_order tx tenantId :
  exists n,
    snd (deleteTenantDatabaseRecords tx tenantId)
    = firstn (S n) [DocumentDeleteMany tenantId; FolderDeleteMany tenantId;
                    UserDeleteMany tenantId; TenantDelete tenantId].
Proof.
  unfold deleteTenantDatabaseRecords.
  destruct (documentDeleteMany tx tenantId); [|now exists 0].
  destruct (folderDeleteMany tx tenantId); [|now exists 1].
  destruct (userDeleteMany tx tenantId); [|now exists 2].
  destruct (tenantDelete tx tenantId); now exists 3.
Qed.

(** X29: [deleteTenantComplete] touches the database only after the
    deletion of the objects has returned and a fresh listing of the tenant
    prefix has come back empty; when that listing fails or still returns
    a key, it throws 'S3 data not fully deleted, aborting' and sends no
    request to the database.  The requests to the database, when there are
    any, start with the documents and go on to the folders, the users and
    the tenant. *)
Theorem deleteTenantComplete_order
    (during after : Deletion.collaborators) (tx : transaction)
    (tenantId : jsstring) (force : bool) :
  let run := deleteTenantComplete during after tx tenantId force in
  (snd run <> [] ->
   (exists s3, outcome (deleteTenantS3Data during tenantId force) = Ok s3)
   /\ outcome (listTenantObjects after tenantId) = Ok []
   /\ exists n, snd run
                = firstn (S n) [DocumentDeleteMany tenantId; FolderDeleteMany tenantId;
                                UserDeleteMany tenantId; TenantDelete tenantId])
  /\ (forall s3,
         outcome (deleteTenantS3Data during tenantId force) = Ok s3 ->
         outcome (listTenantObjects after tenantId) <> Ok [] ->
         fst (fst run) = Throw "S3 data not fully deleted, aborting"
         /\ snd run = [])
  /\ (forall message,
         outcome (deleteTenantS3Data during tenantId force) = Throw message ->
         fst (fst run) = Throw message /\ snd run = []
         /\ snd (fst run) = requests (deleteTenantS3Data during tenantId force)).
Proof.
  intros run. subst run. unfold deleteTenantComplete.
  rewrite (verifyTenantDataDeletion_eq after tenantId).
  destruct (deleteTenantS3Data during tenantId force) as [[s3|m] t];
    cbn [outcome fst snd].
  - destruct (outcome (listTenantObjects after tenantId)) as [[|k keys]|m];
      cbn [negb fst snd].
    + split; [|split; [congruence|discriminate]].
      intros _. split; [now exists s3|]. split; [reflexivity|].
      destruct (deleteTenantDatabaseRecords_order tx tenantId) as [n Hn].
      destruct (deleteTenantDatabaseRecords tx tenantId) as [[a|m] d];
        cbn [snd] in *; now exists n.
    + split; [congruence|]. split; [now split|discriminate].
    + split; [congruence|]. split; [now split|discriminate].
  - split; [congruence|]. split; [discriminate|].
    intros message H. injection H as ->. now repeat split.
Qed.

Lemma deleteTenantComplete_order_witness :
  let keys := [js "tenants/t_9/documents/raw/d1/a.pdf"] in
  let tx := {| documentDeleteMany := fun _ => Ok 1;
               folderDeleteMany := fun _ => Ok 0;
               userDeleteMany := fun _ => Ok 2;
               tenantDelete := fun _ => Ok tt |} in
  fst (fst (deleteTenantComplete (exampleBackend keys) (exampleBackend keys) tx
              (js "t_9") false))
  = Throw "S3 data not fully deleted, aborting"
  /\ snd (deleteTenantComplete (exampleBackend keys) (exampleBackend keys) tx
            (js "t_9") false) = [].
Proof.
  intros keys tx.
  apply (proj1 (proj2 (deleteTenantComplete_order (exampleBackend keys)
                         (exampleBackend keys) tx (js "t_9") false))
           {| deletedCount := 1; requestedCount := Some 1;
              deletionTenantId := js "t_9" |}).
  - reflexivity.
  - vm_compute. discriminate.
Defined.

Example deleteTenantComplete_clean :
  let keys := [js "tenants/t_9/documents/raw/d1/a.pdf"] in
  let tx := {| documentDeleteMany := fun _ => Ok 1;
               folderDeleteMany := fun _ => Ok 0;
               userDeleteMany := fun _ => Ok 2;
               tenantDelete := fun _ => Ok tt |} in
  deleteTenantComplete (exampleBackend keys) (exampleBackend []) tx (js "t_9") false
  = (Ok {| completeTenantId := js "t_9";
           s3Deletion := {| deletedCount := 1; requestedCount := Some 1;
                            deletionTenantId := js "t_9" |};
           databaseDeletion := {| documents := 1; folders := 0; users := 2;
                                  tenant := 1 |};
           verification := true |},
     [TenantFindUnique (js "t_9"); UserCount (js "t_9");
      S3ListObjects (js "tenants/t_9/"); S3DeleteObjects keys;
      AuditLogCreate (deletionAuditEntry (exampleBackend keys) (js "t_9") 1 1);
      S3ListObjects (js "tenants/t_9/")],
     [DocumentDeleteMany (js "t_9"); FolderDeleteMany (js "t_9");
      UserDeleteMany (js "t_9"); TenantDelete (js "t_9")]).
Proof. reflexivity. Qed.

Lemma listLoop_run prefix pages final objectKeys :
  listLoop prefix pages final objectKeys
  = (match final with
     | Ok response =>
         Ok (objectKeys ++ flat_map pageKeys pages ++ pageKeys response)
     | Throw message => Throw message
     end,
     repeat (S3ListObjects prefix) (S (length pages))).
Proof.
  revert objectKeys. induction pages as [|p pages IH]; intros objectKeys.
  - cbn [listLoop flat_map length repeat app].
    destruct final as [response|m]; reflexivity.
  - cbn [listLoop bind call flat_map length]. rewrite IH.
    destruct final as [response|m]; cbn [repeat app]; [|reflexivity].
    now rewrite <- !app_assoc.
Qed.

(** X30: [listTenantObjects] sends one list request per answer, all for
    the prefix [tenants/{tenantId}/]; it returns the keys of all the
    answers in their order, an answer without [Contents] adding none, and
    throws on the failure of a request. *)
Theorem listTenantObjects_pages (c : Deletion.collaborators) (tenantId : jsstring) :
  let prefix := js "tenants/" ++ tenantId ++ js "/" in
  listTenantObjects c tenantId
  = (match final (listObjects c prefix) with
     | Ok response =>
         Ok (flat_map pageKeys (continued (listObjects c prefix)) ++ pageKeys response)
     | Throw message => Throw message
     end,
     repeat (S3ListObjects prefix) (S (length (continued (listObjects c prefix))))).
Proof.
  intros prefix. unfold listTenantObjects. fold prefix. rewrite listLoop_run.
  destruct (final (listObjects c prefix)); cbn [tryCatch throw app];
    now rewrite ?app_nil_r.
Qed.

Example listTenantObjects_two_pages :
  let c := {| tenantFindUnique := fun _ => Ok true;
              userCount := fun _ => Ok 0;
              listObjects := fun _ =>
                {| continued := [{| Contents := Some [js "k1"; js "k2"] |}];
                   final := Ok {| Contents := Some [js "k3"] |} |};
              deleteObjects := fun _ _ => Throw "unused";
              auditLogCreate := fun _ => Ok tt;
              now := 0 |} in
  listTenantObjects c (js "t_9")
  = (Ok [js "k1"; js "k2"; js "k3"],
     [S3ListObjects (js "tenants/t_9/"); S3ListObjects (js "tenants/t_9/")]).
Proof. reflexivity. Qed.
